(** * spotdl.parsers.query_parser: query dispatch and playlist reconciliation

    A shallow embedding of [src/spotdl/parsers/query_parser.py] and the
    properties of its query classification, its per-query dispatch, its
    bag-of-characters title distance, the YouTube-Music matching loop and the
    final duplicate removal. *)

From stdpp Require Import gmap list strings.
From Stdlib Require Import ZArith Permutation.

Local Open Scope Z_scope.

(** ** Python strings

    A Python [str] is a sequence of Unicode code points.  Code points are
    kept as [N]; a literal of the source is written [py "..."]. *)

Abbreviation char := N (only parsing).
Abbreviation pystr := (list N) (only parsing).

Definition py (s : string) : pystr :=
  (fun a => Ascii.N_of_ascii a) <$> String.list_ascii_of_string s.

(** The code points Python treats as whitespace ([str.isspace], and the
    separators of [str.split()] without argument). *)
Definition whitespace_code_points : list N :=
  [9; 10; 11; 12; 13; 28; 29; 30; 31; 32; 133; 160; 5760;
   8192; 8193; 8194; 8195; 8196; 8197; 8198; 8199; 8200; 8201; 8202;
   8232; 8233; 8239; 8287; 12288]%N.

Definition isspace (c : char) : bool :=
  bool_decide (c ∈ whitespace_code_points).

(** [s.split()]: the maximal runs of non-whitespace characters, in order;
    [cur] is the run being read. *)
Fixpoint split_whitespace_from (cur s : pystr) : list pystr :=
  match s with
  | [] => match cur with [] => [] | _ => [cur] end
  | c :: rest =>
      if isspace c
      then match cur with
           | [] => split_whitespace_from [] rest
           | _ => cur :: split_whitespace_from [] rest
           end
      else split_whitespace_from (cur ++ [c]) rest
  end.

Definition split_whitespace (s : pystr) : list pystr :=
  split_whitespace_from [] s.

(** [sep.join(parts)]. *)
Fixpoint str_join (sep : pystr) (parts : list pystr) : pystr :=
  match parts with
  | [] => []
  | [p] => p
  | p :: rest => p ++ sep ++ str_join sep rest
  end.

(** [s.split(sep)] for a separator of one character, the only form the
    module uses ([request.split("|")]). *)
Fixpoint str_split_from (sep : char) (cur s : pystr) : list pystr :=
  match s with
  | [] => [cur]
  | c :: rest =>
      if bool_decide (c = sep)
      then cur :: str_split_from sep [] rest
      else str_split_from sep (cur ++ [c]) rest
  end.

Definition str_split (sep : char) (s : pystr) : list pystr :=
  str_split_from sep [] s.

Fixpoint startswith (s prefix : pystr) : bool :=
  match prefix, s with
  | [], _ => true
  | p :: prefix', c :: s' => bool_decide (c = p) && startswith s' prefix'
  | _ :: _, [] => false
  end.

(** [needle in hay] on strings: [needle] occurs as a contiguous substring. *)
Fixpoint str_in (needle hay : pystr) : bool :=
  startswith hay needle
  || match hay with
     | [] => false
     | _ :: hay' => str_in needle hay'
     end.

Definition endswith (s suffix : pystr) : bool :=
  startswith (reverse s) (reverse suffix).

(** ** The title distance: [compute_diff] (lines 180-188)

    [count_a] and [count_b] are [defaultdict(int)]: a missing key reads as 0.
    The key set [set(count_a) | set(count_b)] is built before the sum starts,
    so the entries a [defaultdict] adds when a missing key is read do not
    change what is summed. *)

Definition getitem_default (count : gmap N Z) (k : char) : Z :=
  default 0 (count !! k).

Definition count_characters (s : pystr) : gmap N Z :=
  foldl (fun count c => <[c := getitem_default count c + 1]> count) ∅ s.

Definition sum_Z (l : list Z) : Z := foldr Z.add 0 l.

Definition compute_diff (a b : pystr) : Z :=
  let count_a := count_characters (str_join [] (split_whitespace a)) in
  let count_b := count_characters (str_join [] (split_whitespace b)) in
  let diff :=
    sum_Z ((fun k => Z.abs (getitem_default count_a k - getitem_default count_b k))
             <$> elements (dom count_a ∪ dom count_b)) in
  diff.

(** The distance as the specification words it: strip the whitespace, take
    the frequency of every character, and add up the absolute differences
    over the characters that occur in either string. *)
Definition remove_whitespace (s : pystr) : pystr :=
  filter (fun c => isspace c = false) s.

Definition frequency (s : pystr) (c : char) : Z :=
  Z.of_nat (count_occ N.eq_dec s c).

Definition characters_of (s : pystr) : gset N := list_to_set s.

Definition distance_spec (a b : pystr) : Z :=
  let a' := remove_whitespace a in
  let b' := remove_whitespace b in
  sum_Z ((fun c => Z.abs (frequency a' c - frequency b' c))
           <$> elements (characters_of a' ∪ characters_of b')).


(** ** Exceptions, printed lines and the effect monad *)

(** The exception classes the module distinguishes: [except (OSError,
    ValueError, LookupError)] also catches the subclasses [KeyError] and
    [IndexError]; [except Exception] catches all but the last two. *)
Inductive exception_class :=
| OSError | ValueError | LookupError | KeyError | IndexError
| AttributeError | TypeError | OtherException
| KeyboardInterrupt | SystemExit.

Record exn := Exn { exn_class : exception_class; exn_message : pystr }.

Definition isinstance_Exception (e : exn) : bool :=
  match exn_class e with
  | KeyboardInterrupt | SystemExit => false
  | _ => true
  end.

Definition isinstance_OSError_ValueError_LookupError (e : exn) : bool :=
  match exn_class e with
  | OSError | ValueError | LookupError | KeyError | IndexError => true
  | _ => false
  end.

(** One constructor per [print] call of the module, with the values that
    are formatted into the line. *)
Inductive printed :=
| Incorrect_format_YouTubeURL          (* line 62 *)
| Fetching_YouTube_video               (* line 64 *)
| Incorrect_format_YouTubeMusicURL     (* line 78 *)
| Fetching_YouTube_Music_playlist      (* line 80 *)
| Fetching_Song                        (* line 89 *)
| Fetching_Album                       (* line 96 *)
| Fetching_Playlist                    (* line 101 *)
| Fetching_artist                      (* line 106 *)
| Fetching_Saved_Songs                 (* line 111 *)
| Searching_Spotify (request : pystr)  (* line 114 *)
| Print_exception (e : exn)            (* line 120 *)
| Gathering_Spotify_Metadata (spotify_url : pystr)       (* lines 135, 175 *)
| Skipping_already_downloaded (file_name : pystr)        (* line 156 *)
| Can_not_find_download_links (youtube_url : pystr)      (* line 194 *)
| Best_match_not_identical (t yt_title : pystr) (diff_score : Z)  (* line 206 *)
| Debug_match (t : pystr) (best_match : Z * nat * pystr) (link : pystr) (* line 213 *)
| Linefeed.                            (* line 32 *)

Inductive result (A : Type) :=
| Ok (a : A)
| Raise (e : exn).
Arguments Ok {A} a.
Arguments Raise {A} e.

(** ** Song objects and provider records *)

(** Modelled from the spec: the dictionaries of [metadata_provider] and the
    class [SongObject] are not part of the module.  Of the track dictionary
    the module reads ["name"] and the ["name"] of each entry of
    ["artists"]; album and artist dictionaries are only passed on. *)
Record ArtistEntry := { artist_name : pystr }.
Record TrackMeta := { track_name : pystr; track_artists : list ArtistEntry }.
Inductive OpaqueMeta := Opaque (payload : pystr).

(** Modelled from the spec: [SongObject] keeps its five constructor
    arguments; [song_name] is the track name, [youtube_link] reads the
    mutable [_youtube_link], and [file_name] is [create_file_name] of the
    name and the artist names. *)
Record SongObject := {
  raw_track_meta : TrackMeta;
  raw_album_meta : OpaqueMeta;
  raw_artist_meta : OpaqueMeta;
  youtube_link : option pystr;
  lyrics : option pystr
}.

Definition song_name (song : SongObject) : pystr :=
  track_name (raw_track_meta song).

Definition contributing_artists (song : SongObject) : list pystr :=
  artist_name <$> track_artists (raw_track_meta song).

Definition set_youtube_link (song : SongObject) (link : pystr) : SongObject :=
  {| raw_track_meta := raw_track_meta song;
     raw_album_meta := raw_album_meta song;
     raw_artist_meta := raw_artist_meta song;
     youtube_link := Some link;
     lyrics := lyrics song |}.

(** One entry of [ytm_provider.get_metadata_for_playlist]. *)
Record YtmEntry := { ytm_title : pystr; ytm_videoId : pystr }.

(** The collaborators.  Each call reads and changes a world [W] (network,
    file system) and returns or raises.  A list returned by [song_gatherer]
    may hold [None] for a song that is already downloaded. *)
Record Providers (W : Type) := {
  create_file_name : pystr -> list pystr -> pystr;
  from_spotify_url :
    pystr -> option pystr -> bool -> W -> result (option SongObject) * W;
  (* from_album(url, output_format, use_youtube, generate_m3u, threads,
                skip_youtube=False) *)
  from_album :
    pystr -> option pystr -> bool -> bool -> Z -> bool ->
    W -> result (list (option SongObject)) * W;
  from_playlist :
    pystr -> option pystr -> bool -> bool -> Z ->
    W -> result (list (option SongObject)) * W;
  from_artist :
    pystr -> option pystr -> bool -> Z ->
    W -> result (list (option SongObject)) * W;
  from_saved_tracks :
    option pystr -> bool -> Z -> W -> result (list (option SongObject)) * W;
  from_search_term :
    pystr -> option pystr -> bool ->
    W -> result (list (option SongObject)) * W;
  (* metadata_provider.from_url: (track, artist, album) *)
  from_url : pystr -> W -> result (TrackMeta * OpaqueMeta * OpaqueMeta) * W;
  _get_song_lyrics : pystr -> list pystr -> W -> result (option pystr) * W;
  get_metadata_for_playlist : pystr -> W -> result (list YtmEntry) * W;
  (* Path(".", name).is_file() *)
  is_file : pystr -> W -> result bool * W
}.
Arguments create_file_name {W} _ _ _.
Arguments from_spotify_url {W} _ _ _ _ _.
Arguments from_album {W} _ _ _ _ _ _ _ _.
Arguments from_playlist {W} _ _ _ _ _ _ _.
Arguments from_artist {W} _ _ _ _ _ _.
Arguments from_saved_tracks {W} _ _ _ _ _.
Arguments from_search_term {W} _ _ _ _ _.
Arguments from_url {W} _ _ _.
Arguments _get_song_lyrics {W} _ _ _ _.
Arguments get_metadata_for_playlist {W} _ _ _.
Arguments is_file {W} _ _ _.

Record state (W : Type) := State { world : W; stdout : list printed }.
Arguments State {W} _ _.
Arguments world {W} _.
Arguments stdout {W} _.

Definition M (W A : Type) : Type := state W -> result A * state W.

Definition ret {W A} (a : A) : M W A := fun st => (Ok a, st).

Definition bind {W A B} (m : M W A) (k : A -> M W B) : M W B :=
  fun st =>
    match m st with
    | (Ok a, st') => k a st'
    | (Raise e, st') => (Raise e, st')
    end.

Definition raise {W A} (e : exn) : M W A := fun st => (Raise e, st).

Definition print {W} (line : printed) : M W unit :=
  fun st => (Ok tt, State (world st) (stdout st ++ [line])).

(** A call of a collaborator: it acts on the world only. *)
Definition call {W A} (f : W -> result A * W) : M W A :=
  fun st => let '(r, w) := f (world st) in (r, State w (stdout st)).

(** [try: body  except <classes>: handler]. *)
Definition try_except {W A} (body : M W A) (classes : exn -> bool)
    (handler : exn -> M W A) : M W A :=
  fun st =>
    match body st with
    | (Raise e, st') =>
        if classes e then handler e st' else (Raise e, st')
    | r => r
    end.

Declare Scope py_scope.
Delimit Scope py_scope with py_.
Notation "x <- m ;; k" := (bind m (fun x => k))
  (at level 100, m at next level, right associativity) : py_scope.
Notation "m ;; k" := (bind m (fun _ => k))
  (at level 100, right associativity) : py_scope.

(** ** The module's functions *)

Section QueryParser.
Context {W : Type} (P : Providers W).
Local Open Scope py_scope.

Definition file_name (song : SongObject) : pystr :=
  create_file_name P (song_name song) (contributing_artists song).

(** An attribute read on a value that may be [None]. *)
Definition getattr {A} (song : option SongObject) (attribute : SongObject -> A)
    : M W A :=
  match song with
  | Some s => ret (attribute s)
  | None => raise (Exn AttributeError (py "'NoneType' object has no attribute"))
  end.

(** [song._youtube_link = link], in place in the source; here the changed
    song is returned. *)
Definition setattr_youtube_link (song : option SongObject) (link : pystr)
    : M W (option SongObject) :=
  match song with
  | Some s => ret (Some (set_youtube_link s link))
  | None => raise (Exn AttributeError (py "'NoneType' object has no attribute"))
  end.

(** *** [get_youtube_meta_track] (lines 128-164) *)
Definition get_youtube_meta_track (youtube_url spotify_url : pystr)
    (output_format : option pystr) : M W (option SongObject) :=
  print (Gathering_Spotify_Metadata spotify_url);;
  meta <- call (from_url P spotify_url);;
  let '(raw_track_meta, raw_artist_meta, raw_album_meta) := meta in
  let song_name := track_name raw_track_meta in
  let contributing_artist := artist_name <$> track_artists raw_track_meta in
  let converted_file_name :=
    create_file_name P song_name
      (artist_name <$> track_artists raw_track_meta) in
  let output_format := default (py "mp3") output_format in
  let converted_file_path := converted_file_name ++ py "." ++ output_format in
  exists_ <- call (is_file P converted_file_path);;
  if exists_ : bool then
    print (Skipping_already_downloaded converted_file_name);;
    ret None
  else
    lyrics <- call (_get_song_lyrics P song_name contributing_artist);;
    ret (Some {| raw_track_meta := raw_track_meta;
                 raw_album_meta := raw_album_meta;
                 raw_artist_meta := raw_artist_meta;
                 youtube_link := Some youtube_url;
                 lyrics := lyrics |}).

(** *** [get_youtube_meta_playlist] (lines 167-215) *)

(** [<] on strings and on the tuples [(diff, idx, title)]: the first
    position where the two differ decides. *)
Fixpoint str_lt (a b : pystr) : bool :=
  match a, b with
  | _, [] => false
  | [], _ :: _ => true
  | x :: a', y :: b' =>
      if bool_decide (x = y) then str_lt a' b' else bool_decide (x < y)%N
  end.

Definition tuple_lt (x y : Z * nat * pystr) : bool :=
  let '(d1, i1, s1) := x in
  let '(d2, i2, s2) := y in
  if negb (bool_decide (d1 = d2)) then bool_decide (d1 < d2)
  else if negb (bool_decide (i1 = i2)) then bool_decide (i1 < i2)%nat
  else str_lt s1 s2.

(** [min(diff_scores)]: the first of the smallest items; [ValueError] on an
    empty list. *)
Definition py_min (items : list (Z * nat * pystr)) : M W (Z * nat * pystr) :=
  match items with
  | [] => raise (Exn ValueError (py "min() arg is an empty sequence"))
  | first :: others =>
      ret (foldl (fun best item => if tuple_lt item best then item else best)
                 first others)
  end.

(** [ytm_metadata[best_idx]]. *)
Definition getitem (ytm_metadata : list YtmEntry) (idx : nat) : M W YtmEntry :=
  match ytm_metadata !! idx with
  | Some entry => ret entry
  | None => raise (Exn IndexError (py "list index out of range"))
  end.

Definition youtube_watch_prefix : pystr := py "https://www.youtube.com/watch?v=".

(** The body of the loop of lines 198-213 for one [song] of [song_list];
    the song with its [_youtube_link] assigned is returned. *)
Definition find_best_match (ytm_metadata : list YtmEntry)
    (ytm_titles : list pystr) (song : option SongObject)
    : M W (option SongObject) :=
  t <- getattr song song_name;;
  let diff_scores := imap (fun idx yt => (compute_diff t yt, idx, yt)) ytm_titles in
  best_match <- py_min diff_scores;;
  let '(diff_score, best_idx, yt_title) := best_match in
  (if negb (bool_decide (diff_score = 0))
   then print (Best_match_not_identical t yt_title diff_score)
   else ret tt);;
  entry <- getitem ytm_metadata best_idx;;
  let link := youtube_watch_prefix ++ ytm_videoId entry in
  song' <- setattr_youtube_link song link;;
  print (Debug_match t best_match link);;
  ret song'.

Fixpoint for_each_song (ytm_metadata : list YtmEntry) (ytm_titles : list pystr)
    (song_list : list (option SongObject)) : M W (list (option SongObject)) :=
  match song_list with
  | [] => ret []
  | song :: rest =>
      song' <- find_best_match ytm_metadata ytm_titles song;;
      rest' <- for_each_song ytm_metadata ytm_titles rest;;
      ret (song' :: rest')
  end.

Definition get_youtube_meta_playlist (youtube_url spotify_url : pystr)
    (output_format : option pystr) (generate_m3u : bool) (threads : Z)
    : M W (list (option SongObject)) :=
  print (Gathering_Spotify_Metadata spotify_url);;
  song_list <- call (from_album P spotify_url output_format false
                       generate_m3u threads true);;
  ytm_metadata <- call (get_metadata_for_playlist P youtube_url);;
  let ytm_titles := ytm_title <$> ytm_metadata in
  match ytm_titles with
  | [] =>
      print (Can_not_find_download_links youtube_url);;
      ret []
  | _ => for_each_song ytm_metadata ytm_titles song_list
  end.

(** *** [parse_request] (lines 45-125) *)

Definition pipe : char := 124%N.

(** The test of lines 61 and 77.  Python's [or] reads [urls[0]] and
    [urls[1]] only when the length test has failed; the total lookup
    stands for that. *)
Definition incorrect_format (urls : list pystr) : bool :=
  bool_decide (length urls <= 1)%nat
  || negb (str_in (py "youtube") (urls !!! 0%nat))
  || negb (str_in (py "spotify") (urls !!! 1%nat)).

(** Lines 59-69. *)
Definition paired_track_urls (request : pystr) (output_format : option pystr)
    : M W (list (option SongObject)) :=
  let urls := str_split pipe request in
  if incorrect_format urls then
    print Incorrect_format_YouTubeURL;;
    ret []
  else
    print Fetching_YouTube_video;;
    song <- get_youtube_meta_track (urls !!! 0%nat) (urls !!! 1%nat) output_format;;
    ret (filter is_Some [song]).

(** Lines 75-87. *)
Definition paired_playlist_urls (request : pystr) (output_format : option pystr)
    (generate_m3u : bool) (threads : Z) : M W (list (option SongObject)) :=
  let urls := str_split pipe request in
  if incorrect_format urls then
    print Incorrect_format_YouTubeMusicURL;;
    ret []
  else
    print Fetching_YouTube_Music_playlist;;
    songs <- get_youtube_meta_playlist (urls !!! 0%nat) (urls !!! 1%nat)
               output_format generate_m3u threads;;
    ret (filter is_Some songs).

(** Lines 89-94. *)
Definition single_track (request : pystr) (output_format : option pystr)
    (use_youtube : bool) : M W (list (option SongObject)) :=
  print Fetching_Song;;
  song <- call (from_spotify_url P request output_format use_youtube);;
  try_except
    (link <- getattr song youtube_link;;
     ret (if link is Some _ then [song] else []))
    isinstance_OSError_ValueError_LookupError
    (fun _ => ret []).

(** Lines 114-120; [song_list] is still the [[]] of line 52 in the handler. *)
Definition search_term (request : pystr) (output_format : option pystr)
    (use_youtube : bool) : M W (list (option SongObject)) :=
  print (Searching_Spotify request);;
  try_except
    (call (from_search_term P request output_format use_youtube))
    isinstance_Exception
    (fun e => print (Print_exception e);; ret []).

Definition parse_request (request : pystr) (output_format : option pystr)
    (use_youtube generate_m3u : bool) (threads : Z) : M W (list SongObject) :=
  song_list <-
    (if str_in (py "youtube.com/watch?v=") request
        && str_in (py "open.spotify.com") request
        && str_in (py "track") request
        && str_in [pipe] request
     then paired_track_urls request output_format
     else if str_in (py "music.youtube.com/playlist?list=") request
             && str_in (py "open.spotify.com") request
             && str_in [pipe] request
     then paired_playlist_urls request output_format generate_m3u threads
     else if str_in (py "open.spotify.com") request && str_in (py "track") request
     then single_track request output_format use_youtube
     else if str_in (py "open.spotify.com") request && str_in (py "album") request
     then print Fetching_Album;;
          call (from_album P request output_format use_youtube generate_m3u
                  threads false)
     else if str_in (py "open.spotify.com") request && str_in (py "playlist") request
     then print Fetching_Playlist;;
          call (from_playlist P request output_format use_youtube generate_m3u
                  threads)
     else if str_in (py "open.spotify.com") request && str_in (py "artist") request
     then print Fetching_artist;;
          call (from_artist P request output_format use_youtube threads)
     else if bool_decide (request = py "saved")
     then print Fetching_Saved_Songs;;
          call (from_saved_tracks P output_format use_youtube threads)
     else search_term request output_format use_youtube);;
  (* filter out NONE songObj items (already downloaded) *)
  ret (omap id song_list).

(** *** [parse_query] (lines 13-42) *)

(** The loop of lines 23-32; [songs_list] is the list built so far. *)
Fixpoint for_each_request (query : list pystr) (output_format : option pystr)
    (use_youtube generate_m3u : bool) (threads : Z)
    (songs_list : list SongObject) : M W (list SongObject) :=
  match query with
  | [] => ret songs_list
  | request :: rest =>
      if endswith request (py ".spotdlTrackingFile")
      then for_each_request rest output_format use_youtube generate_m3u threads
             songs_list
      else
        found <- parse_request request output_format use_youtube generate_m3u
                   threads;;
        print Linefeed;;
        for_each_request rest output_format use_youtube generate_m3u threads
          (songs_list ++ found)
  end.

(** The loop of lines 35-40. *)
Fixpoint remove_duplicates (songs_list : list SongObject)
    (seen_songs : gset (list N)) (songs : list SongObject) : list SongObject :=
  match songs_list with
  | [] => songs
  | song :: rest =>
      if bool_decide (file_name song ∉ seen_songs)
      then remove_duplicates rest ({[file_name song]} ∪ seen_songs)
             (songs ++ [song])
      else remove_duplicates rest seen_songs songs
  end.

Definition parse_query (query : list pystr) (format : option pystr)
    (use_youtube generate_m3u : bool) (threads : Z) : M W (list SongObject) :=
  songs_list <- for_each_request query format use_youtube generate_m3u threads [];;
  ret (remove_duplicates songs_list ∅ []).

End QueryParser.

Arguments py : simpl never.

(** ** Classification as the specification words it

    The rules of [parse_request] in their priority order; the first rule
    whose guard holds decides, and [SearchTerm] is the default. *)

Inductive RequestKind :=
| PairedTrackURLs | PairedPlaylistURLs | SingleTrack | Album | Playlist
| Artist | SavedLibrary | SearchTerm.

Definition guard (kind : RequestKind) (request : pystr) : bool :=
  match kind with
  | PairedTrackURLs =>
      str_in (py "youtube.com/watch?v=") request
      && str_in (py "open.spotify.com") request
      && str_in (py "track") request
      && str_in [pipe] request
  | PairedPlaylistURLs =>
      str_in (py "music.youtube.com/playlist?list=") request
      && str_in (py "open.spotify.com") request
      && str_in [pipe] request
  | SingleTrack =>
      str_in (py "open.spotify.com") request && str_in (py "track") request
  | Album =>
      str_in (py "open.spotify.com") request && str_in (py "album") request
  | Playlist =>
      str_in (py "open.spotify.com") request && str_in (py "playlist") request
  | Artist =>
      str_in (py "open.spotify.com") request && str_in (py "artist") request
  | SavedLibrary => bool_decide (request = py "saved")
  | SearchTerm => true
  end.

Definition priority_order : list RequestKind :=
  [PairedTrackURLs; PairedPlaylistURLs; SingleTrack; Album; Playlist; Artist;
   SavedLibrary; SearchTerm].

Definition classify (request : pystr) : RequestKind :=
  default SearchTerm
    (head (filter (fun kind => guard kind request = true) priority_order)).

Section Dispatch.
Context {W : Type} (P : Providers W).
Local Open Scope py_scope.

(** What [parse_request] runs for a request of each kind, before the final
    filter of line 123. *)
Definition handle (kind : RequestKind) (request : pystr)
    (output_format : option pystr) (use_youtube generate_m3u : bool)
    (threads : Z) : M W (list (option SongObject)) :=
  match kind with
  | PairedTrackURLs => paired_track_urls P request output_format
  | PairedPlaylistURLs =>
      paired_playlist_urls P request output_format generate_m3u threads
  | SingleTrack => single_track P request output_format use_youtube
  | Album =>
      print Fetching_Album;;
      call (from_album P request output_format use_youtube generate_m3u
              threads false)
  | Playlist =>
      print Fetching_Playlist;;
      call (from_playlist P request output_format use_youtube generate_m3u
              threads)
  | Artist =>
      print Fetching_artist;;
      call (from_artist P request output_format use_youtube threads)
  | SavedLibrary =>
      print Fetching_Saved_Songs;;
      call (from_saved_tracks P output_format use_youtube threads)
  | SearchTerm => search_term P request output_format use_youtube
  end.

(** The bulk fetch of the four kinds that delegate to one. *)
Definition bulk_fetch (kind : RequestKind) (request : pystr)
    (output_format : option pystr) (use_youtube generate_m3u : bool)
    (threads : Z) : option (W -> result (list (option SongObject)) * W) :=
  match kind with
  | Album =>
      Some (from_album P request output_format use_youtube generate_m3u
              threads false)
  | Playlist =>
      Some (from_playlist P request output_format use_youtube generate_m3u
              threads)
  | Artist => Some (from_artist P request output_format use_youtube threads)
  | SavedLibrary => Some (from_saved_tracks P output_format use_youtube threads)
  | _ => None
  end.

(** The paired-playlist pathway as the specification words it: the catalog
    entities come from the playlist bulk fetch. *)
Definition get_youtube_meta_playlist_spec (youtube_url spotify_url : pystr)
    (output_format : option pystr) (generate_m3u : bool) (threads : Z)
    : M W (list (option SongObject)) :=
  print (Gathering_Spotify_Metadata spotify_url);;
  song_list <- call (from_playlist P spotify_url output_format false
                       generate_m3u threads);;
  ytm_metadata <- call (get_metadata_for_playlist P youtube_url);;
  let ytm_titles := ytm_title <$> ytm_metadata in
  match ytm_titles with
  | [] =>
      print (Can_not_find_download_links youtube_url);;
      ret []
  | _ => for_each_song ytm_metadata ytm_titles song_list
  end.

End Dispatch.

(** The duplicate removal as the specification words it: the item at
    position [i] is kept when no earlier position holds its key, and the
    kept items stay in the order of the input. *)
Definition stable_dedup {A} (key : A -> pystr) (l : list A) : list A :=
  omap id
    (imap (fun i x =>
             if bool_decide (key x ∈ key <$> take i l) then None else Some x)
          l).

(** ** The matcher as the specification words it *)

(** What the specification asks of the matcher: [entry], at position [idx],
    has the least distance to [t], and no earlier entry has the same. *)
Definition is_best_match (ytm_metadata : list YtmEntry) (t : list N)
    (idx : nat) (entry : YtmEntry) : Prop :=
  ytm_metadata !! idx = Some entry
  /\ forall j other,
       ytm_metadata !! j = Some other ->
       compute_diff t (ytm_title entry) <= compute_diff t (ytm_title other)
       /\ (compute_diff t (ytm_title other) = compute_diff t (ytm_title entry) ->
           (idx <= j)%nat).

Definition assigned (song : SongObject) (entry : YtmEntry) : SongObject :=
  set_youtube_link song (youtube_watch_prefix ++ ytm_videoId entry).

(** The lines the loop prints for [song] when [entry] at [idx] is chosen. *)
Definition report (song : SongObject) (idx : nat) (entry : YtmEntry)
    : list printed :=
  let t := song_name song in
  let diff_score := compute_diff t (ytm_title entry) in
  (if bool_decide (diff_score = 0) then []
   else [Best_match_not_identical t (ytm_title entry) diff_score])
  ++ [Debug_match t (diff_score, idx, ytm_title entry)
        (youtube_watch_prefix ++ ytm_videoId entry)].

(** The order [min] follows on the first two components of its items. *)
Definition key_le (x y : Z * nat * list N) : Prop :=
  x.1.1 < y.1.1 \/ (x.1.1 = y.1.1 /\ (x.1.2 <= y.1.2)%nat).

(** ** A scripted world for concrete runs

    The world is the trace of the collaborator calls made so far; every
    collaborator records its call and answers from a script. *)

Inductive call_record :=
| Called_from_spotify_url (url : pystr)
| Called_from_album (url : pystr) (use_youtube skip_youtube : bool)
| Called_from_playlist (url : pystr) (use_youtube : bool)
| Called_from_artist (url : pystr)
| Called_from_saved_tracks
| Called_from_search_term (term : pystr)
| Called_from_url (url : pystr)
| Called_get_song_lyrics (name : pystr)
| Called_get_metadata_for_playlist (url : pystr)
| Called_is_file (path : pystr).

Record Script := {
  spotify_url_answer : result (option SongObject);
  album_answer : result (list (option SongObject));
  playlist_answer : result (list (option SongObject));
  artist_answer : result (list (option SongObject));
  saved_answer : result (list (option SongObject));
  search_answer : result (list (option SongObject));
  url_answer : result (TrackMeta * OpaqueMeta * OpaqueMeta);
  lyrics_answer : result (option pystr);
  ytm_answer : result (list YtmEntry);
  is_file_answer : result bool
}.

Definition artists_dash_name (name : pystr) (artists : list pystr) : pystr :=
  str_join (py ", ") artists ++ py " - " ++ name.

Definition scripted (s : Script) : Providers (list call_record) :=
  {| create_file_name := artists_dash_name;
     from_spotify_url := fun url _ _ w =>
       (spotify_url_answer s, w ++ [Called_from_spotify_url url]);
     from_album := fun url _ use_youtube _ _ skip_youtube w =>
       (album_answer s, w ++ [Called_from_album url use_youtube skip_youtube]);
     from_playlist := fun url _ use_youtube _ _ w =>
       (playlist_answer s, w ++ [Called_from_playlist url use_youtube]);
     from_artist := fun url _ _ _ w =>
       (artist_answer s, w ++ [Called_from_artist url]);
     from_saved_tracks := fun _ _ _ w =>
       (saved_answer s, w ++ [Called_from_saved_tracks]);
     from_search_term := fun term _ _ w =>
       (search_answer s, w ++ [Called_from_search_term term]);
     from_url := fun url w => (url_answer s, w ++ [Called_from_url url]);
     _get_song_lyrics := fun name _ w =>
       (lyrics_answer s, w ++ [Called_get_song_lyrics name]);
     get_metadata_for_playlist := fun url w =>
       (ytm_answer s, w ++ [Called_get_metadata_for_playlist url]);
     is_file := fun path w => (is_file_answer s, w ++ [Called_is_file path]) |}.

Definition track (name artist : string) : TrackMeta :=
  {| track_name := py name; track_artists := [ {| artist_name := py artist |} ] |}.

Definition song (name artist : string) (link : option pystr) : SongObject :=
  {| raw_track_meta := track name artist;
     raw_album_meta := Opaque (py "album");
     raw_artist_meta := Opaque (py "artist");
     youtube_link := link;
     lyrics := None |}.

Definition connection_error : exn := Exn OSError (py "connection refused").

(** Every collaborator answers; nothing is downloaded yet. *)
Definition calm : Script :=
  {| spotify_url_answer := Ok (Some (song "Hello" "Adele" (Some (py "yt/hello"))));
     album_answer := Ok [Some (song "Hello" "Adele" None);
                         Some (song "Skyfall" "Adele" None)];
     playlist_answer := Ok [];
     artist_answer := Ok [];
     saved_answer := Ok [Some (song "Daydreamer" "Adele" (Some (py "yt/day")))];
     search_answer := Ok [];
     url_answer := Ok (track "Hello" "Adele", Opaque (py "artist"), Opaque (py "album"));
     lyrics_answer := Ok None;
     ytm_answer := Ok [ {| ytm_title := py "Sky fall"; ytm_videoId := py "v1" |};
                        {| ytm_title := py "Hello (Live)"; ytm_videoId := py "v2" |};
                        {| ytm_title := py "fallSky"; ytm_videoId := py "v3" |} ];
     is_file_answer := Ok false |}.

(** As [calm], but every catalog fetch and the search fail. *)
Definition offline : Script :=
  {| spotify_url_answer := Raise connection_error;
     album_answer := Raise connection_error;
     playlist_answer := Raise connection_error;
     artist_answer := Raise connection_error;
     saved_answer := Raise connection_error;
     search_answer := Raise connection_error;
     url_answer := Raise connection_error;
     lyrics_answer := Raise connection_error;
     ytm_answer := Raise connection_error;
     is_file_answer := Ok false |}.

(** As [calm], but the lyrics lookup fails. *)
Definition no_lyrics : Script :=
  {| spotify_url_answer := spotify_url_answer calm;
     album_answer := album_answer calm;
     playlist_answer := playlist_answer calm;
     artist_answer := artist_answer calm;
     saved_answer := saved_answer calm;
     search_answer := search_answer calm;
     url_answer := url_answer calm;
     lyrics_answer := Raise connection_error;
     ytm_answer := ytm_answer calm;
     is_file_answer := is_file_answer calm |}.

(** As [calm], but YouTube Music has no entry for the playlist. *)
Definition no_candidates : Script :=
  {| spotify_url_answer := spotify_url_answer calm;
     album_answer := album_answer calm;
     playlist_answer := playlist_answer calm;
     artist_answer := artist_answer calm;
     saved_answer := saved_answer calm;
     search_answer := search_answer calm;
     url_answer := url_answer calm;
     lyrics_answer := lyrics_answer calm;
     ytm_answer := Ok [];
     is_file_answer := is_file_answer calm |}.

Definition start : state (list call_record) := State [] [].

Definition paired_track_request : pystr :=
  py "youtube.com/watch?v=1|open.spotify.com/track/2".

Definition paired_playlist_request : pystr :=
  py "music.youtube.com/playlist?list=OLAK|open.spotify.com/playlist/3".

Definition two_candidates : list YtmEntry :=
  [ {| ytm_title := py "Sky fall"; ytm_videoId := py "v1" |};
    {| ytm_title := py "fallSky"; ytm_videoId := py "v3" |} ].

(** As [calm], but the second song of the album is already downloaded. *)
Definition half_downloaded : Script :=
  {| spotify_url_answer := spotify_url_answer calm;
     album_answer := Ok [Some (song "Hello" "Adele" None); None];
     playlist_answer := playlist_answer calm;
     artist_answer := artist_answer calm;
     saved_answer := saved_answer calm;
     search_answer := search_answer calm;
     url_answer := url_answer calm;
     lyrics_answer := lyrics_answer calm;
     ytm_answer := ytm_answer calm;
     is_file_answer := is_file_answer calm |}.

(** As [calm], but every probed file exists. *)
Definition downloaded : Script :=
  {| spotify_url_answer := spotify_url_answer calm;
     album_answer := album_answer calm;
     playlist_answer := playlist_answer calm;
     artist_answer := artist_answer calm;
     saved_answer := saved_answer calm;
     search_answer := search_answer calm;
     url_answer := url_answer calm;
     lyrics_answer := lyrics_answer calm;
     ytm_answer := ytm_answer calm;
     is_file_answer := Ok true |}.

Definition swapped_request : list N :=
  py "open.spotify.com/track/2|youtube.com/watch?v=1".

(** * Properties *)

Local Open Scope py_scope.

(** ** The title distance *)

Lemma str_join_nil (parts : list (list N)) : str_join [] parts = concat parts.
Proof.
  induction parts as [|p [|q rest] IH]; simpl in *.
  - reflexivity.
  - by rewrite app_nil_r.
  - by rewrite IH.
Qed.

Lemma split_whitespace_from_concat (cur s : list N) :
  concat (split_whitespace_from cur s) = cur ++ remove_whitespace s.
Proof.
  revert cur. induction s as [|c rest IH]; intros cur; simpl.
  - destruct cur; simpl; by rewrite ?app_nil_r.
  - unfold remove_whitespace in *. rewrite filter_cons.
    destruct (isspace c) eqn:Hc; simpl.
    + destruct cur; simpl; rewrite IH; reflexivity.
    + rewrite IH. by rewrite <- app_assoc.
Qed.

Lemma join_split_whitespace (s : list N) :
  str_join [] (split_whitespace s) = remove_whitespace s.
Proof.
  rewrite str_join_nil. unfold split_whitespace.
  by rewrite split_whitespace_from_concat.
Qed.

Lemma frequency_cons (c x : N) (s : list N) :
  frequency (x :: s) c = (if decide (x = c) then 1 else 0) + frequency s c.
Proof.
  unfold frequency. simpl.
  destruct (N.eq_dec x c); destruct (decide (x = c)); try congruence; lia.
Qed.

Lemma count_characters_from (m : gmap N Z) (s : list N) (c : N) :
  getitem_default
    (foldl (fun count c => <[c := getitem_default count c + 1]> count) m s) c
  = getitem_default m c + frequency s c.
Proof.
  revert m. induction s as [|x s IH]; intros m; simpl.
  - unfold frequency. simpl. lia.
  - rewrite IH, frequency_cons. unfold getitem_default at 1.
    destruct (decide (x = c)) as [->|Hne].
    + rewrite lookup_insert_eq. simpl. lia.
    + rewrite lookup_insert_ne by done. fold (getitem_default m c). lia.
Qed.

Lemma count_characters_dom_from (m : gmap N Z) (s : list N) :
  dom (foldl (fun count c => <[c := getitem_default count c + 1]> count) m s)
  = dom m ∪ list_to_set s.
Proof.
  revert m. induction s as [|x s IH]; intros m; simpl.
  - by rewrite (right_id_L ∅ (∪)).
  - rewrite IH, dom_insert_L.
    by rewrite (assoc_L (∪)), (comm_L (∪) (dom m)).
Qed.

Lemma getitem_count_characters (s : list N) (c : N) :
  getitem_default (count_characters s) c = frequency s c.
Proof.
  unfold count_characters. rewrite count_characters_from.
  unfold getitem_default. rewrite lookup_empty. simpl. lia.
Qed.

Lemma dom_count_characters (s : list N) :
  dom (count_characters s) = characters_of s.
Proof.
  unfold count_characters, characters_of. rewrite count_characters_dom_from.
  by rewrite dom_empty_L, (left_id_L ∅ (∪)).
Qed.

Lemma compute_diff_distance_spec (a b : list N) :
  compute_diff a b = distance_spec a b.
Proof.
  unfold compute_diff, distance_spec.
  rewrite !join_split_whitespace, !dom_count_characters.
  f_equal. apply list_fmap_ext. intros _ k _.
  by rewrite !getitem_count_characters.
Qed.

Lemma sum_Z_nonneg (l : list Z) : Forall (fun z => 0 <= z) l -> 0 <= sum_Z l.
Proof. induction 1; simpl; lia. Qed.

Lemma sum_Z_zero (l : list Z) :
  Forall (fun z => 0 <= z) l -> sum_Z l = 0 <-> Forall (fun z => z = 0) l.
Proof.
  induction 1 as [|z l Hz Hl IH]; simpl.
  - split; auto.
  - pose proof (sum_Z_nonneg l Hl). split.
    + intros Hs. constructor; [lia|]. apply IH. lia.
    + intros Hall. inversion Hall; subst. simpl. apply IH. assumption.
Qed.

Lemma abs_terms_nonneg (f : N -> Z) (l : list N) :
  Forall (fun z => 0 <= z) ((fun c => Z.abs (f c)) <$> l).
Proof. apply Forall_fmap, Forall_forall. intros c _. simpl. lia. Qed.

Lemma frequency_absent (s : list N) (c : N) :
  c ∉ characters_of s -> frequency s c = 0.
Proof.
  unfold characters_of, frequency. rewrite elem_of_list_to_set.
  intros Hc. rewrite (proj1 (count_occ_not_In N.eq_dec s c)); [reflexivity|].
  by rewrite <- list_elem_of_In.
Qed.

Lemma distance_spec_zero (a b : list N) :
  distance_spec a b = 0 <->
  forall c, frequency (remove_whitespace a) c = frequency (remove_whitespace b) c.
Proof.
  unfold distance_spec. cbv zeta.
  rewrite sum_Z_zero by apply abs_terms_nonneg.
  rewrite Forall_fmap, Forall_forall. split.
  - intros Hall c.
    destruct (decide (c ∈ characters_of (remove_whitespace a)
                            ∪ characters_of (remove_whitespace b))) as [Hin|Hout].
    + specialize (Hall c). simpl in Hall.
      rewrite elem_of_elements in Hall. specialize (Hall Hin). lia.
    + apply not_elem_of_union in Hout as [Ha Hb].
      by rewrite !frequency_absent.
  - intros Heq c _. simpl. rewrite Heq. lia.
Qed.

Lemma frequency_permutation (s t : list N) :
  (forall c, frequency s c = frequency t c) <-> s ≡ₚ t.
Proof.
  rewrite (Permutation_count_occ N.eq_dec). unfold frequency.
  split; intros H c; specialize (H c); lia.
Qed.

(** C3: for all strings [a] and [b], [compute_diff a b] is the distance of
    the specification (whitespace removed, character frequencies, sum over
    the characters of either string of the absolute difference); it is not
    negative, and it is zero exactly when the two strings without their
    whitespace hold the same characters with the same multiplicities. *)
Theorem compute_diff_meets_its_definition (a b : list N) :
  compute_diff a b = distance_spec a b
  /\ 0 <= compute_diff a b
  /\ (compute_diff a b = 0 <-> remove_whitespace a ≡ₚ remove_whitespace b).
Proof.
  rewrite compute_diff_distance_spec. split; [reflexivity|]. split.
  - apply sum_Z_nonneg, abs_terms_nonneg.
  - by rewrite distance_spec_zero, frequency_permutation.
Qed.

Lemma distance_spec_sym (a b : list N) : distance_spec a b = distance_spec b a.
Proof.
  unfold distance_spec. cbv zeta.
  rewrite (comm_L (∪) (characters_of (remove_whitespace a))).
  f_equal. apply list_fmap_ext. intros _ c _. simpl. lia.
Qed.

(** C8: [compute_diff] is symmetric, is zero on equal arguments, is zero on
    two strings that differ only in whitespace, and is zero on the anagrams
    "abc" and "bca". *)
Theorem compute_diff_laws :
  (forall a b : list N, compute_diff a b = compute_diff b a)
  /\ (forall a : list N, compute_diff a a = 0)
  /\ (forall a b : list N,
        remove_whitespace a = remove_whitespace b -> compute_diff a b = 0)
  /\ compute_diff (py "abc") (py "bca") = 0.
Proof.
  split; [|split; [|split]].
  - intros a b. rewrite !compute_diff_distance_spec. apply distance_spec_sym.
  - intros a. rewrite compute_diff_distance_spec. by apply distance_spec_zero.
  - intros a b Hab. rewrite compute_diff_distance_spec.
    apply distance_spec_zero. intros c. by rewrite Hab.
  - vm_compute. reflexivity.
Qed.

Lemma compute_diff_laws_witness :
  remove_whitespace (py "Sky fall") = remove_whitespace (py " Skyfall ")
  /\ compute_diff (py "Sky fall") (py " Skyfall ") = 0.
Proof.
  split; [reflexivity|].
  apply (proj1 (proj2 (proj2 compute_diff_laws))). reflexivity.
Defined.

(** ** Strings and the paired-URL format test *)

Lemma startswith_spec (s prefix : list N) :
  startswith s prefix = true <-> exists t, s = prefix ++ t.
Proof.
  revert s. induction prefix as [|p prefix IH]; intros s; simpl.
  - split; [intros _; by exists s | intros _; by destruct s].
  - destruct s as [|c s].
    + split; [discriminate|]. intros [t Ht]. discriminate.
    + simpl. rewrite andb_true_iff, bool_decide_eq_true, IH. split.
      * intros [-> [t ->]]. eauto.
      * intros [t Ht]. injection Ht as -> ->. eauto.
Qed.

Lemma str_in_spec (needle hay : list N) :
  str_in needle hay = true <-> exists before after, hay = before ++ needle ++ after.
Proof.
  induction hay as [|c hay IH]; simpl.
  - destruct needle as [|x needle]; simpl.
    + split; [intros _; by exists [], [] | reflexivity].
    + split; [discriminate|]. intros [[|b before] [after H]]; discriminate.
  - change (startswith (c :: hay) needle || str_in needle hay = true
            <-> exists before after, c :: hay = before ++ needle ++ after).
    rewrite orb_true_iff, startswith_spec, IH. split.
    + intros [[t Ht]|[before [after H]]].
      * exists [], t. exact Ht.
      * exists (c :: before), after. by rewrite H.
    + intros [[|b before] [after H]].
      * left. eauto.
      * right. injection H as -> ->. eauto.
Qed.

Lemma str_in_trans (a b c : list N) :
  str_in a b = true -> str_in b c = true -> str_in a c = true.
Proof.
  rewrite !str_in_spec. intros [p [q ->]] [p' [q' ->]].
  exists (p' ++ p), (q ++ q'). by rewrite <- !app_assoc.
Qed.

Lemma str_in_app_l (needle s t : list N) :
  str_in needle s = true -> str_in needle (s ++ t) = true.
Proof.
  rewrite !str_in_spec. intros [p [q ->]].
  exists p, (q ++ t). by rewrite <- !app_assoc.
Qed.

Lemma str_in_app_r (needle s t : list N) :
  str_in needle t = true -> str_in needle (s ++ t) = true.
Proof.
  rewrite !str_in_spec. intros [p [q ->]].
  exists (s ++ p), q. by rewrite <- !app_assoc.
Qed.

Lemma str_in_char (c : N) (s : list N) : str_in [c] s = true <-> c ∈ s.
Proof.
  rewrite str_in_spec. split.
  - intros [p [q ->]]. set_solver.
  - intros Hc. apply list_elem_of_split in Hc as [p [q ->]]. by exists p, q.
Qed.

Lemma str_split_from_nonempty (sep : N) (cur s : list N) :
  (1 <= length (str_split_from sep cur s))%nat.
Proof.
  revert cur. induction s as [|c s IH]; intros cur; simpl; [lia|].
  case_bool_decide; simpl; [lia|apply IH].
Qed.

Lemma str_split_from_length (sep : N) (cur s : list N) :
  sep ∈ s -> (2 <= length (str_split_from sep cur s))%nat.
Proof.
  revert cur. induction s as [|c s IH]; intros cur Hsep.
  - by apply elem_of_nil in Hsep.
  - simpl. case_bool_decide as Hc.
    + simpl. pose proof (str_split_from_nonempty sep [] s). lia.
    + apply IH. apply elem_of_cons in Hsep as [Heq|Hin]; [congruence|assumption].
Qed.

Lemma str_split_from_no_sep (sep : N) (cur s : list N) :
  sep ∉ s -> str_split_from sep cur s = [cur ++ s].
Proof.
  revert cur. induction s as [|c s IH]; intros cur Hsep; simpl.
  - by rewrite app_nil_r.
  - apply not_elem_of_cons in Hsep as [Hc Hs].
    rewrite bool_decide_eq_false_2 by congruence.
    rewrite IH by assumption. by rewrite <- app_assoc.
Qed.

Lemma str_split_pair (sep : N) (a b : list N) :
  sep ∉ a -> sep ∉ b -> str_split sep (a ++ [sep] ++ b) = [a; b].
Proof.
  unfold str_split. intros Ha Hb.
  assert (forall cur, str_split_from sep cur (a ++ [sep] ++ b) = [cur ++ a; b]) as H.
  { induction a as [|c a IH]; intros cur; simpl.
    - rewrite bool_decide_eq_true_2 by reflexivity.
      by rewrite str_split_from_no_sep, app_nil_r.
    - apply not_elem_of_cons in Ha as [Hc Ha].
      rewrite bool_decide_eq_false_2 by congruence.
      rewrite IH by assumption. by rewrite <- app_assoc. }
  apply H.
Qed.

Lemma guard_paired_has_pipe (request : list N) :
  guard PairedTrackURLs request = true \/ guard PairedPlaylistURLs request = true ->
  str_in [pipe] request = true.
Proof.
  unfold guard. intros [H|H]; repeat (apply andb_true_iff in H as [H ?]); assumption.
Qed.

(** C10: when the guard of either paired-URL branch holds, the request
    contains a pipe, so [request.split("|")] has at least two segments: the
    test [len(urls) <= 1] is always false there, and the format test of
    lines 61 and 77 fails only when "youtube" is missing from the first
    segment or "spotify" from the second. *)
Theorem length_check_of_paired_urls_is_dead (request : list N) :
  guard PairedTrackURLs request = true \/ guard PairedPlaylistURLs request = true ->
  let urls := str_split pipe request in
  (2 <= length urls)%nat
  /\ bool_decide (length urls <= 1)%nat = false
  /\ incorrect_format urls =
       negb (str_in (py "youtube") (urls !!! 0%nat))
       || negb (str_in (py "spotify") (urls !!! 1%nat)).
Proof.
  intros Hguard urls.
  assert (2 <= length urls)%nat as Hlen.
  { apply str_split_from_length, str_in_char, guard_paired_has_pipe, Hguard. }
  assert (bool_decide (length urls <= 1)%nat = false) as Hdead.
  { apply bool_decide_eq_false_2. lia. }
  split; [exact Hlen|]. split; [exact Hdead|].
  unfold incorrect_format. by rewrite Hdead.
Qed.

Lemma length_check_of_paired_urls_is_dead_witness :
  guard PairedTrackURLs paired_track_request = true
  /\ (2 <= length (str_split pipe paired_track_request))%nat.
Proof.
  split; [reflexivity|].
  apply (length_check_of_paired_urls_is_dead paired_track_request).
  left. reflexivity.
Defined.

(** ** Classification *)

Section Classification.
Context {W : Type} (P : Providers W).

Lemma first_match_split {K} (g : K -> bool) (d : K) (l : list K) :
  let k := default d (head (filter (fun k => g k = true) l)) in
  (exists earlier later,
      l = earlier ++ k :: later /\ g k = true
      /\ Forall (fun k => g k = false) earlier)
  \/ (Forall (fun k => g k = false) l /\ k = d).
Proof.
  induction l as [|x l IH]; simpl.
  - right. by split.
  - rewrite filter_cons. destruct (g x) eqn:Hx.
    + rewrite decide_True by reflexivity. simpl.
      left. exists [], l. by repeat split.
    + rewrite decide_False by discriminate.
      destruct IH as [(earlier & later & Hl & Hk & Hearlier)|[Hall Hd]].
      * left. exists (x :: earlier), later. split; [simpl; f_equal; exact Hl|].
        split; [assumption|]. by constructor.
      * right. split; [by constructor|assumption].
Qed.

Lemma classify_first_match (request : list N) :
  exists earlier later,
    priority_order = earlier ++ classify request :: later
    /\ guard (classify request) request = true
    /\ Forall (fun kind => guard kind request = false) earlier.
Proof.
  destruct (first_match_split (fun kind => guard kind request) SearchTerm
              priority_order) as [H|[Hall Hd]]; [exact H|].
  fold (classify request) in Hd.
  exists [PairedTrackURLs; PairedPlaylistURLs; SingleTrack; Album; Playlist;
          Artist; SavedLibrary], [].
  rewrite Hd. split; [reflexivity|]. split; [reflexivity|].
  unfold priority_order in Hall.
  repeat match goal with
         | H : Forall _ (_ :: _) |- _ => apply Forall_cons in H as [? H]
         end.
  by repeat constructor.
Qed.

Lemma parse_request_handle (request : list N) (output_format : option (list N))
    (use_youtube generate_m3u : bool) (threads : Z) :
  parse_request P request output_format use_youtube generate_m3u threads
  = (song_list <- handle P (classify request) request output_format use_youtube
                    generate_m3u threads;;
     ret (omap id song_list)).
Proof.
  unfold classify, priority_order, parse_request.
  rewrite !filter_cons, filter_nil.
  destruct (guard PairedTrackURLs request) eqn:G1;
    unfold guard in G1; rewrite G1; [reflexivity|].
  destruct (guard PairedPlaylistURLs request) eqn:G2;
    unfold guard in G2; rewrite G2; [reflexivity|].
  destruct (guard SingleTrack request) eqn:G3;
    unfold guard in G3; rewrite G3; [reflexivity|].
  destruct (guard Album request) eqn:G4;
    unfold guard in G4; rewrite G4; [reflexivity|].
  destruct (guard Playlist request) eqn:G5;
    unfold guard in G5; rewrite G5; [reflexivity|].
  destruct (guard Artist request) eqn:G6;
    unfold guard in G6; rewrite G6; [reflexivity|].
  destruct (guard SavedLibrary request) eqn:G7;
    unfold guard in G7; rewrite G7; reflexivity.
Qed.

End Classification.

Section Priority.
Context {W : Type} (P : Providers W).

Lemma classify_paired_track (request : list N) :
  guard PairedTrackURLs request = true -> classify request = PairedTrackURLs.
Proof.
  intros G. unfold classify, priority_order.
  by rewrite filter_cons, decide_True.
Qed.

Lemma classify_default (request : list N) :
  (forall kind, kind ≠ SearchTerm -> guard kind request = false) ->
  classify request = SearchTerm.
Proof.
  intros Hnone.
  destruct (classify_first_match request) as (_ & _ & _ & Hg & _).
  destruct (classify request) eqn:Hk; try reflexivity;
    rewrite Hnone in Hg by discriminate; discriminate.
Qed.

(** C4: [parse_request] runs, for every request, the branch of exactly one
    kind, [classify request]: the first kind in the priority order whose guard
    holds.  A request with both the paired-track pattern and the single-track
    pattern is handled as paired track URLs, and a request that matches no
    rule is handled as a search term. *)
Theorem classification_follows_the_priority_order (request : list N)
    (output_format : option (list N)) (use_youtube generate_m3u : bool)
    (threads : Z) :
  parse_request P request output_format use_youtube generate_m3u threads
  = (song_list <- handle P (classify request) request output_format
                    use_youtube generate_m3u threads;;
     ret (omap id song_list))
  /\ (exists earlier later,
        priority_order = earlier ++ classify request :: later
        /\ guard (classify request) request = true
        /\ Forall (fun kind => guard kind request = false) earlier)
  /\ (guard PairedTrackURLs request = true ->
      guard SingleTrack request = true ->
      classify request = PairedTrackURLs
      /\ parse_request P request output_format use_youtube generate_m3u threads
         = (song_list <- paired_track_urls P request output_format;;
            ret (omap id song_list)))
  /\ ((forall kind, kind ≠ SearchTerm -> guard kind request = false) ->
      classify request = SearchTerm
      /\ parse_request P request output_format use_youtube generate_m3u threads
         = (song_list <- search_term P request output_format use_youtube;;
            ret (omap id song_list))).
Proof.
  split; [apply parse_request_handle|].
  split; [apply classify_first_match|].
  split.
  - intros Hpaired _. split; [by apply classify_paired_track|].
    by rewrite parse_request_handle, classify_paired_track.
  - intros Hnone. split; [by apply classify_default|].
    by rewrite parse_request_handle, classify_default.
Qed.

End Priority.

Lemma classification_follows_the_priority_order_witness :
  guard PairedTrackURLs paired_track_request = true
  /\ guard SingleTrack paired_track_request = true
  /\ classify paired_track_request = PairedTrackURLs
  /\ classify (py "adele hello") = SearchTerm.
Proof.
  split; [reflexivity|]. split; [reflexivity|]. split.
  - apply (classification_follows_the_priority_order (scripted calm)
             paired_track_request None false false 1); reflexivity.
  - apply (classification_follows_the_priority_order (scripted calm)
             (py "adele hello") None false false 1).
    intros kind Hkind. destruct kind; try reflexivity. by destruct Hkind.
Defined.

(** ** Running the effects; collaborator errors *)

Section Runs.
Context {W : Type}.

Lemma run_bind_ok {A B} (m : M W A) (k : A -> M W B) (st st' : state W) (a : A) :
  m st = (Ok a, st') -> bind m k st = k a st'.
Proof. intros H. unfold bind. by rewrite H. Qed.

Lemma run_bind_raise {A B} (m : M W A) (k : A -> M W B) (st st' : state W) e :
  m st = (Raise e, st') -> bind m k st = (Raise e, st').
Proof. intros H. unfold bind. by rewrite H. Qed.

Lemma run_print (line : printed) (st : state W) :
  print line st = (Ok tt, State (world st) (stdout st ++ [line])).
Proof. reflexivity. Qed.

Lemma run_call {A} (f : W -> result A * W) (st : state W) r w :
  f (world st) = (r, w) -> call f st = (r, State w (stdout st)).
Proof. intros H. unfold call. by rewrite H. Qed.

Lemma omap_filter_is_Some {A} (l : list (option A)) :
  omap id (filter is_Some l) = omap id l.
Proof.
  induction l as [|[x|] l IH]; [reflexivity| |]; rewrite filter_cons.
  - rewrite decide_True by eauto. simpl. f_equal. exact IH.
  - rewrite decide_False by (intros [? ?]; discriminate). exact IH.
Qed.

End Runs.

Section Errors.
Context {W : Type} (P : Providers W).

(** C1, as the module has it: an error of class [Exception] raised by the
    search is caught and printed and the query yields the empty list; an error
    raised by a bulk fetch (album, playlist, artist, saved tracks) is not
    caught: it leaves [parse_request], and [parse_query] raises it without
    handling the remaining queries. *)
Theorem search_errors_are_caught_bulk_errors_propagate (request : list N)
    (output_format : option (list N)) (use_youtube generate_m3u : bool)
    (threads : Z) (st : state W) (e : exn) (w' : W) :
  (classify request = SearchTerm ->
   from_search_term P request output_format use_youtube (world st) = (Raise e, w') ->
   isinstance_Exception e = true ->
   parse_request P request output_format use_youtube generate_m3u threads st
   = (Ok [], State w' (stdout st ++ [Searching_Spotify request; Print_exception e])))
  /\ (forall fetch,
        bulk_fetch P (classify request) request output_format use_youtube
          generate_m3u threads = Some fetch ->
        fetch (world st) = (Raise e, w') ->
        exists line,
          parse_request P request output_format use_youtube generate_m3u threads st
          = (Raise e, State w' (stdout st ++ [line]))
          /\ (endswith request (py ".spotdlTrackingFile") = false ->
              forall rest,
                parse_query P (request :: rest) output_format use_youtube
                  generate_m3u threads st
                = (Raise e, State w' (stdout st ++ [line])))).
Proof.
  split.
  - intros Hkind Hraise He. rewrite parse_request_handle, Hkind. simpl.
    unfold search_term, bind, try_except, print, call, ret. simpl.
    rewrite Hraise, He. simpl. by rewrite <- app_assoc.
  - intros fetch Hfetch Hraise.
    assert (forall line,
      handle P (classify request) request output_format use_youtube generate_m3u
        threads = (print line;; call fetch) ->
      parse_request P request output_format use_youtube generate_m3u threads st
      = (Raise e, State w' (stdout st ++ [line]))) as Hrun.
    { intros line Hh. rewrite parse_request_handle, Hh.
      unfold bind, print, call. simpl. by rewrite Hraise. }
    assert (exists line,
      handle P (classify request) request output_format use_youtube generate_m3u
        threads = (print line;; call fetch)) as [line Hline].
    { destruct (classify request); simpl in *; try discriminate Hfetch;
        injection Hfetch as <-; eauto. }
    exists line. split; [by apply Hrun|].
    intros Hsuffix rest. unfold parse_query. simpl. rewrite Hsuffix.
    unfold bind at 1 2. by rewrite (Hrun line Hline).
Qed.

End Errors.

Lemma search_errors_are_caught_bulk_errors_propagate_witness :
  parse_request (scripted offline) (py "adele hello") None false false 1 start
  = (Ok [], State [Called_from_search_term (py "adele hello")]
              [Searching_Spotify (py "adele hello"); Print_exception connection_error])
  /\ exists line,
       parse_request (scripted offline) (py "open.spotify.com/artist/7") None
         false false 1 start
       = (Raise connection_error,
          State [Called_from_artist (py "open.spotify.com/artist/7")] [line]).
Proof.
  split.
  - apply (proj1 (search_errors_are_caught_bulk_errors_propagate (scripted offline)
                    (py "adele hello") None false false 1 start connection_error
                    [Called_from_search_term (py "adele hello")]));
      reflexivity.
  - destruct (proj2 (search_errors_are_caught_bulk_errors_propagate
                       (scripted offline) (py "open.spotify.com/artist/7") None
                       false false 1 start connection_error
                       [Called_from_artist (py "open.spotify.com/artist/7")])
                _ eq_refl eq_refl) as (line & Hrun & _).
    exists line. exact Hrun.
Defined.

Lemma album_error_aborts_the_batch :
  parse_request (scripted offline) (py "open.spotify.com/album/1") None false false 1 start
  = (Raise connection_error,
     State [Called_from_album (py "open.spotify.com/album/1") false false]
           [Fetching_Album])
  /\ parse_query (scripted offline) [py "open.spotify.com/album/1"; py "saved"]
       None false false 1 start
     = (Raise connection_error,
        State [Called_from_album (py "open.spotify.com/album/1") false false]
              [Fetching_Album]).
Proof. split; vm_compute; reflexivity. Qed.

(** ** Paired track URLs *)

Section PairedTrack.
Context {W : Type} (P : Providers W).

Lemma correct_format_pair (yt sp : list N) :
  pipe ∉ yt -> pipe ∉ sp ->
  str_in (py "youtube") yt = true -> str_in (py "spotify") sp = true ->
  str_split pipe (yt ++ [pipe] ++ sp) = [yt; sp]
  /\ incorrect_format (str_split pipe (yt ++ [pipe] ++ sp)) = false.
Proof.
  intros Hyt Hsp Hy Hs. rewrite str_split_pair by assumption.
  split; [reflexivity|]. unfold incorrect_format. simpl.
  change ([yt; sp] !!! 0%nat) with yt. change ([yt; sp] !!! 1%nat) with sp.
  by rewrite Hy, Hs.
Qed.

Lemma run_get_youtube_meta_track (yt sp : list N) (output_format : option (list N))
    (st : state W) (meta : TrackMeta) (artist album : OpaqueMeta)
    (words : option (list N)) (w1 w2 w3 : W) :
  from_url P sp (world st) = (Ok (meta, artist, album), w1) ->
  is_file P
    (create_file_name P (track_name meta) (artist_name <$> track_artists meta)
     ++ py "." ++ default (py "mp3") output_format) w1 = (Ok false, w2) ->
  _get_song_lyrics P (track_name meta) (artist_name <$> track_artists meta) w2
  = (Ok words, w3) ->
  get_youtube_meta_track P yt sp output_format st
  = (Ok (Some {| raw_track_meta := meta; raw_album_meta := album;
                 raw_artist_meta := artist; youtube_link := Some yt;
                 lyrics := words |}),
     State w3 (stdout st ++ [Gathering_Spotify_Metadata sp])).
Proof.
  intros Hurl Hfile Hlyrics.
  unfold get_youtube_meta_track, bind, print, call, ret.
  cbn [world stdout]. rewrite Hurl. cbn [world stdout].
  rewrite Hfile. cbn [world stdout]. rewrite Hlyrics. reflexivity.
Qed.

(** C9, as the module has it: for a request [yt|sp] of an audio URL and a
    catalog track URL, when the metadata fetch succeeds, the target file does
    not exist and the lyrics lookup returns, [parse_query] yields exactly one
    song whose audio link is [yt]; only the three collaborators named in the
    hypotheses are called. *)
Theorem paired_track_uses_the_supplied_link (yt sp : list N)
    (output_format : option (list N)) (use_youtube generate_m3u : bool)
    (threads : Z) (st : state W) (meta : TrackMeta) (artist album : OpaqueMeta)
    (words : option (list N)) (w1 w2 w3 : W) :
  let request := yt ++ [pipe] ++ sp in
  let entity := {| raw_track_meta := meta; raw_album_meta := album;
                   raw_artist_meta := artist; youtube_link := Some yt;
                   lyrics := words |} in
  let st' := State w3 (stdout st ++ [Fetching_YouTube_video;
                                      Gathering_Spotify_Metadata sp]) in
  pipe ∉ yt -> pipe ∉ sp ->
  str_in (py "youtube.com/watch?v=") yt = true ->
  str_in (py "open.spotify.com") sp = true ->
  str_in (py "track") sp = true ->
  endswith request (py ".spotdlTrackingFile") = false ->
  from_url P sp (world st) = (Ok (meta, artist, album), w1) ->
  is_file P
    (create_file_name P (track_name meta) (artist_name <$> track_artists meta)
     ++ py "." ++ default (py "mp3") output_format) w1 = (Ok false, w2) ->
  _get_song_lyrics P (track_name meta) (artist_name <$> track_artists meta) w2
  = (Ok words, w3) ->
  classify request = PairedTrackURLs
  /\ parse_request P request output_format use_youtube generate_m3u threads st
     = (Ok [entity], st')
  /\ parse_query P [request] output_format use_youtube generate_m3u threads st
     = (Ok [entity], State w3 (stdout st' ++ [Linefeed]))
  /\ youtube_link entity = Some yt.
Proof.
  intros request entity st' Hyt Hsp Hwatch Hspotify Htrack Hsuffix Hurl Hfile
    Hlyrics.
  assert (guard PairedTrackURLs request = true) as Hguard.
  { assert (forall needle, str_in needle sp = true ->
                            str_in needle request = true) as Hright.
    { intros needle Hin. by apply str_in_app_r, str_in_app_r. }
    unfold guard.
    rewrite (Hright _ Hspotify), (Hright _ Htrack).
    unfold request. rewrite (str_in_app_l _ yt _ Hwatch).
    by rewrite (str_in_app_r _ yt _ (str_in_app_l [pipe] [pipe] sp eq_refl)). }
  assert (str_in (py "youtube") yt = true) as Hy.
  { eapply str_in_trans; [|exact Hwatch]. reflexivity. }
  assert (str_in (py "spotify") sp = true) as Hs.
  { eapply str_in_trans; [|exact Hspotify]. reflexivity. }
  destruct (correct_format_pair yt sp Hyt Hsp Hy Hs) as [Hurls Hformat].
  assert (parse_request P request output_format use_youtube generate_m3u threads st
          = (Ok [entity], st')) as Hrun.
  { rewrite parse_request_handle, classify_paired_track by assumption.
    unfold handle, paired_track_urls, request. rewrite Hformat, Hurls.
    change ([yt; sp] !!! 0%nat) with yt. change ([yt; sp] !!! 1%nat) with sp.
    unfold bind at 1 2. rewrite run_print. unfold bind at 1.
    erewrite run_get_youtube_meta_track by eassumption.
    unfold ret, st'. simpl. by rewrite <- app_assoc. }
  split; [by apply classify_paired_track|]. split; [exact Hrun|].
  split; [|reflexivity].
  unfold parse_query, for_each_request. rewrite Hsuffix.
  unfold bind at 1 2. rewrite Hrun. unfold bind, print, ret. simpl.
  by rewrite bool_decide_eq_true_2 by set_solver.
Qed.

End PairedTrack.

Lemma paired_track_uses_the_supplied_link_witness :
  parse_query (scripted calm) [paired_track_request] None false false 1 start
  = (Ok [song "Hello" "Adele" (Some (py "youtube.com/watch?v=1"))],
     State [Called_from_url (py "open.spotify.com/track/2");
            Called_is_file (py "Adele - Hello.mp3");
            Called_get_song_lyrics (py "Hello")]
           [Fetching_YouTube_video;
            Gathering_Spotify_Metadata (py "open.spotify.com/track/2");
            Linefeed]).
Proof.
  apply (paired_track_uses_the_supplied_link (scripted calm)
           (py "youtube.com/watch?v=1") (py "open.spotify.com/track/2")
           None false false 1 start (track "Hello" "Adele")
           (Opaque (py "artist")) (Opaque (py "album")) None
           [Called_from_url (py "open.spotify.com/track/2")]
           [Called_from_url (py "open.spotify.com/track/2");
            Called_is_file (py "Adele - Hello.mp3")]
           [Called_from_url (py "open.spotify.com/track/2");
            Called_is_file (py "Adele - Hello.mp3");
            Called_get_song_lyrics (py "Hello")]);
    first [reflexivity | by apply (bool_decide_unpack _)].
Defined.

Lemma lyrics_error_leaves_no_entity :
  from_url (scripted no_lyrics) (py "open.spotify.com/track/2") []
  = (Ok (track "Hello" "Adele", Opaque (py "artist"), Opaque (py "album")),
     [Called_from_url (py "open.spotify.com/track/2")])
  /\ is_file (scripted no_lyrics) (py "Adele - Hello.mp3")
       [Called_from_url (py "open.spotify.com/track/2")]
     = (Ok false, [Called_from_url (py "open.spotify.com/track/2");
                   Called_is_file (py "Adele - Hello.mp3")])
  /\ parse_query (scripted no_lyrics) [paired_track_request] None false false 1 start
     = (Raise connection_error,
        State [Called_from_url (py "open.spotify.com/track/2");
               Called_is_file (py "Adele - Hello.mp3");
               Called_get_song_lyrics (py "Hello")]
              [Fetching_YouTube_video;
               Gathering_Spotify_Metadata (py "open.spotify.com/track/2")]).
Proof. repeat split; vm_compute; reflexivity. Qed.

(** ** The matching loop *)

Lemma tuple_lt_key (x y : Z * nat * list N) :
  if tuple_lt x y then key_le x y else key_le y x.
Proof.
  destruct x as [[d1 i1] s1], y as [[d2 i2] s2]. unfold tuple_lt, key_le. simpl.
  repeat case_bool_decide; simpl; try lia.
  all: destruct (str_lt s1 s2); lia.
Qed.

Lemma key_le_trans (x y z : Z * nat * list N) :
  key_le x y -> key_le y z -> key_le x z.
Proof. unfold key_le. lia. Qed.

Lemma key_le_refl (x : Z * nat * list N) : key_le x x.
Proof. unfold key_le. lia. Qed.

Lemma smallest_is_least (first : Z * nat * list N) (others : list (Z * nat * list N)) :
  let best := foldl (fun best item => if tuple_lt item best then item else best)
                first others in
  best ∈ first :: others /\ forall x, x ∈ first :: others -> key_le best x.
Proof.
  revert first. induction others as [|item others IH]; intros first; simpl.
  - split; [by apply list_elem_of_singleton|].
    intros x Hx. apply list_elem_of_singleton in Hx as ->. apply key_le_refl.
  - pose proof (tuple_lt_key item first) as Hcmp.
    destruct (tuple_lt item first); cbv iota.
    + destruct (IH item) as [Hin Hleast]. split.
      * rewrite elem_of_cons. by right.
      * intros x Hx. rewrite elem_of_cons in Hx. destruct Hx as [->|Hx].
        -- eapply key_le_trans; [|exact Hcmp].
           apply Hleast, elem_of_cons. by left.
        -- by apply Hleast.
    + destruct (IH first) as [Hin Hleast]. split.
      * rewrite !elem_of_cons in Hin |- *.
        destruct Hin as [Hin|Hin]; [left; exact Hin | right; right; exact Hin].
      * intros x Hx. rewrite !elem_of_cons in Hx. destruct Hx as [->|[->|Hx]].
        -- apply Hleast, elem_of_cons. by left.
        -- eapply key_le_trans; [|exact Hcmp].
           apply Hleast, elem_of_cons. by left.
        -- apply Hleast, elem_of_cons. by right.
Qed.

Lemma best_match_unique (ytm_metadata : list YtmEntry) (t : list N)
    (i j : nat) (e e' : YtmEntry) :
  is_best_match ytm_metadata t i e -> is_best_match ytm_metadata t j e' ->
  i = j /\ e = e'.
Proof.
  intros [Hi Hmin] [Hj Hmin'].
  destruct (Hmin j e' Hj) as [Hle Htie], (Hmin' i e Hi) as [Hle' Htie'].
  assert (i = j) as -> by lia. split; [reflexivity|]. congruence.
Qed.

Section Matching.
Context {W : Type}.

Lemma run_find_best_match (ytm_metadata : list YtmEntry) (song : SongObject) :
  ytm_metadata ≠ [] ->
  exists idx entry,
    is_best_match ytm_metadata (song_name song) idx entry
    /\ forall st : state W,
         find_best_match ytm_metadata (ytm_title <$> ytm_metadata) (Some song) st
         = (Ok (Some (assigned song entry)),
            State (world st) (stdout st ++ report song idx entry)).
Proof.
  intros Hne. set (t := song_name song).
  set (diff_scores :=
         imap (fun idx yt => (compute_diff t yt, idx, yt)) (ytm_title <$> ytm_metadata)).
  destruct diff_scores as [|first others] eqn:Hscores.
  { destruct ytm_metadata; [done|discriminate Hscores]. }
  destruct (smallest_is_least first others) as [Hin Hleast].
  set (best := foldl (fun best item => if tuple_lt item best then item else best)
                 first others) in *.
  rewrite <- Hscores in Hin, Hleast. unfold diff_scores in Hin, Hleast.
  apply elem_of_lookup_imap in Hin as (idx & yt & Hbest & Hyt).
  rewrite list_lookup_fmap in Hyt.
  destruct (ytm_metadata !! idx) as [entry|] eqn:Hentry; [|discriminate Hyt].
  injection Hyt as <-.
  exists idx, entry. split.
  - split; [exact Hentry|]. intros j other Hother.
    assert (key_le best (compute_diff t (ytm_title other), j, ytm_title other)) as Hle.
    { apply Hleast.
      apply (elem_of_lookup_imap_2
               (fun idx yt => (compute_diff t yt, idx, yt)) _ (ytm_title other) j).
      by rewrite list_lookup_fmap, Hother. }
    rewrite Hbest in Hle. unfold key_le in Hle. simpl in Hle. fold t. lia.
  - intros st. unfold find_best_match, getattr.
    unfold bind at 1. unfold ret at 1. fold t. fold diff_scores.
    rewrite Hscores. unfold py_min, bind at 1. unfold ret at 1. fold best.
    rewrite Hbest. unfold getitem. rewrite Hentry.
    unfold report, assigned. fold t. cbv zeta.
    case_bool_decide; unfold bind, print, ret, setattr_youtube_link; simpl;
      by rewrite <- ?app_assoc.
Qed.

Lemma run_for_each_song (ytm_metadata : list YtmEntry) (songs : list SongObject) :
  ytm_metadata ≠ [] ->
  exists choice : list (nat * YtmEntry),
    Forall2 (fun song c => is_best_match ytm_metadata (song_name song) c.1 c.2)
      songs choice
    /\ forall st : state W,
         for_each_song ytm_metadata (ytm_title <$> ytm_metadata) (Some <$> songs) st
         = (Ok (Some <$> zip_with (fun song c => assigned song c.2) songs choice),
            State (world st)
              (stdout st
               ++ concat (zip_with (fun song c => report song c.1 c.2) songs choice))).
Proof.
  intros Hne. induction songs as [|song songs IH].
  - exists []. split; [constructor|]. intros [w out]. simpl.
    unfold ret. by rewrite app_nil_r.
  - destruct IH as (choice & Hall & Hrun).
    destruct (run_find_best_match ytm_metadata song Hne) as (idx & entry & Hbest & Hone).
    exists ((idx, entry) :: choice). split; [by constructor|].
    intros st. simpl. unfold bind at 1. rewrite Hone.
    unfold bind at 1. rewrite Hrun. unfold ret. simpl. by rewrite <- app_assoc.
Qed.

End Matching.

(** C2: with a non-empty candidate list, the loop body gives every song the
    entry whose title has the least distance to the song name, the earliest
    such entry on a tie; the loop over a list of songs does so for each of
    them, whatever the world and the output so far; the choice is unique; the
    link is the watch prefix followed by the entry's video id; and a nonzero
    distance prints the mismatch line while the song is still returned. *)
Theorem every_song_gets_its_best_match (ytm_metadata : list YtmEntry)
    (songs : list SongObject) :
  ytm_metadata ≠ [] ->
  (forall song, exists idx entry,
      is_best_match ytm_metadata (song_name song) idx entry
      /\ forall W (st : state W),
           find_best_match ytm_metadata (ytm_title <$> ytm_metadata) (Some song) st
           = (Ok (Some (assigned song entry)),
              State (world st) (stdout st ++ report song idx entry)))
  /\ (exists choice : list (nat * YtmEntry),
        Forall2 (fun song c => is_best_match ytm_metadata (song_name song) c.1 c.2)
          songs choice
        /\ forall W (st : state W),
             for_each_song ytm_metadata (ytm_title <$> ytm_metadata)
               (Some <$> songs) st
             = (Ok (Some <$> zip_with (fun song c => assigned song c.2) songs choice),
                State (world st)
                  (stdout st
                   ++ concat (zip_with (fun song c => report song c.1 c.2)
                                songs choice))))
  /\ (forall t i j e e',
        is_best_match ytm_metadata t i e -> is_best_match ytm_metadata t j e' ->
        i = j /\ e = e')
  /\ (forall song idx entry,
        youtube_link (assigned song entry)
        = Some (youtube_watch_prefix ++ ytm_videoId entry)
        /\ (compute_diff (song_name song) (ytm_title entry) ≠ 0 ->
            Best_match_not_identical (song_name song) (ytm_title entry)
              (compute_diff (song_name song) (ytm_title entry))
            ∈ report song idx entry)).
Proof.
  intros Hne. split; [|split; [|split]].
  - intros song.
    destruct (run_find_best_match (W:=unit) ytm_metadata song Hne)
      as (idx & entry & Hbest & _).
    exists idx, entry. split; [exact Hbest|]. intros W st.
    destruct (run_find_best_match (W:=W) ytm_metadata song Hne)
      as (idx' & entry' & Hbest' & Hrun).
    destruct (best_match_unique _ _ _ _ _ _ Hbest Hbest') as [-> ->].
    apply Hrun.
  - destruct (run_for_each_song (W:=unit) ytm_metadata songs Hne)
      as (choice & Hall & _).
    exists choice. split; [exact Hall|]. intros W st.
    destruct (run_for_each_song (W:=W) ytm_metadata songs Hne)
      as (choice' & Hall' & Hrun).
    assert (choice' = choice) as ->; [|apply Hrun].
    clear Hrun. revert choice choice' Hall Hall'.
    induction songs as [|song songs IH]; intros choice choice' Hall Hall'.
    + apply Forall2_nil_inv_l in Hall, Hall'. congruence.
    + apply Forall2_cons_inv_l in Hall as ([i e] & rest & Hc & Hrest & ->).
      apply Forall2_cons_inv_l in Hall' as ([i' e'] & rest' & Hc' & Hrest' & ->).
      simpl in Hc, Hc'.
      destruct (best_match_unique _ _ _ _ _ _ Hc Hc') as [-> ->].
      f_equal. by apply IH.
  - intros t i j e e'. apply best_match_unique.
  - intros song idx entry. split; [reflexivity|].
    intros Hdiff. unfold report. cbv zeta.
    rewrite bool_decide_eq_false_2 by exact Hdiff.
    apply elem_of_app. left. by apply list_elem_of_singleton.
Qed.

Lemma every_song_gets_its_best_match_witness :
  two_candidates ≠ []
  /\ exists idx entry,
       is_best_match two_candidates (py "Skyfall") idx entry
       /\ forall W (st : state W),
            find_best_match two_candidates (ytm_title <$> two_candidates)
              (Some (song "Skyfall" "Adele" None)) st
            = (Ok (Some (assigned (song "Skyfall" "Adele" None) entry)),
               State (world st)
                 (stdout st ++ report (song "Skyfall" "Adele" None) idx entry)).
Proof.
  split; [discriminate|].
  assert (two_candidates ≠ []) as Hne by discriminate.
  exact (proj1 (every_song_gets_its_best_match two_candidates
                  [song "Skyfall" "Adele" None] Hne)
           (song "Skyfall" "Adele" None)).
Defined.

(** ** Paired playlist URLs *)

Lemma omap_id_Some {A} (l : list A) : omap id (Some <$> l) = l.
Proof. induction l as [|x l IH]; [reflexivity|]. simpl. f_equal. exact IH. Qed.

Section PairedPlaylist.
Context {W : Type} (P : Providers W).

Lemma run_paired_playlist (request : list N) (output_format : option (list N))
    (use_youtube generate_m3u : bool) (threads : Z) (st : state W)
    (song_list : list (option SongObject)) (ytm_metadata : list YtmEntry)
    (w1 w2 : W) :
  let urls := str_split pipe request in
  classify request = PairedPlaylistURLs ->
  incorrect_format urls = false ->
  from_album P (urls !!! 1%nat) output_format false generate_m3u threads true
    (world st) = (Ok song_list, w1) ->
  get_metadata_for_playlist P (urls !!! 0%nat) w1 = (Ok ytm_metadata, w2) ->
  parse_request P request output_format use_youtube generate_m3u threads st
  = (songs <- match ytm_title <$> ytm_metadata with
              | [] => print (Can_not_find_download_links (urls !!! 0%nat));;
                      ret []
              | _ => for_each_song ytm_metadata (ytm_title <$> ytm_metadata)
                       song_list
              end;;
     ret (omap id songs))
      (State w2 (stdout st ++ [Fetching_YouTube_Music_playlist;
                               Gathering_Spotify_Metadata (urls !!! 1%nat)])).
Proof.
  intros urls Hkind Hformat Halbum Hytm.
  rewrite parse_request_handle, Hkind.
  unfold handle, paired_playlist_urls. fold urls. rewrite Hformat.
  unfold get_youtube_meta_playlist, bind, print, call, ret.
  cbn [world stdout]. rewrite Halbum. cbn [world stdout]. rewrite Hytm.
  rewrite <- app_assoc. cbn [app].
  destruct (_ <$> ytm_metadata) eqn:Htitles.
  - reflexivity.
  - destruct (for_each_song _ _ _ _) as [[songs|e] st']; [|reflexivity].
    by rewrite omap_filter_is_Some.
Qed.

(** C5: for a paired-playlist request in the correct format, when the album
    fetch returns any list and YouTube Music returns no entry, the request
    prints the report and yields the empty list, and [parse_query] goes on
    with the remaining queries, its list so far unchanged. *)
Theorem no_candidates_yield_an_empty_list (request : list N)
    (output_format : option (list N)) (use_youtube generate_m3u : bool)
    (threads : Z) (st : state W) (song_list : list (option SongObject))
    (w1 w2 : W) :
  let urls := str_split pipe request in
  let youtube_url := urls !!! 0%nat in
  let spotify_url := urls !!! 1%nat in
  let st' := State w2 (stdout st ++ [Fetching_YouTube_Music_playlist;
                                      Gathering_Spotify_Metadata spotify_url;
                                      Can_not_find_download_links youtube_url]) in
  classify request = PairedPlaylistURLs ->
  incorrect_format urls = false ->
  from_album P spotify_url output_format false generate_m3u threads true
    (world st) = (Ok song_list, w1) ->
  get_metadata_for_playlist P youtube_url w1 = (Ok [], w2) ->
  parse_request P request output_format use_youtube generate_m3u threads st
  = (Ok [], st')
  /\ (endswith request (py ".spotdlTrackingFile") = false ->
      forall rest songs_list,
        for_each_request P (request :: rest) output_format use_youtube
          generate_m3u threads songs_list st
        = for_each_request P rest output_format use_youtube generate_m3u threads
            songs_list (State w2 (stdout st' ++ [Linefeed]))).
Proof.
  intros urls youtube_url spotify_url st' Hkind Hformat Halbum Hytm.
  assert (parse_request P request output_format use_youtube generate_m3u threads st
          = (Ok [], st')) as Hrun.
  { erewrite run_paired_playlist by eassumption.
    unfold bind, print, ret, st'. simpl. by rewrite <- app_assoc. }
  split; [exact Hrun|].
  intros Hsuffix rest songs_list. simpl. rewrite Hsuffix.
  unfold bind at 1. rewrite Hrun. unfold bind, print. simpl.
  by rewrite app_nil_r.
Qed.

(** C7, as the module has it: for a paired-playlist request in the correct
    format, the songs are fetched with [from_album] (not [from_playlist]) on
    the second segment, with [use_youtube] false and [skip_youtube] true, the
    candidates with [get_metadata_for_playlist] on the first segment, and,
    when the candidate list is not empty and the fetched list holds songs
    only (no empty slot), the request returns these songs, in their order,
    each with the link of its best match. *)
Theorem paired_playlist_uses_the_album_fetch (request : list N)
    (output_format : option (list N)) (use_youtube generate_m3u : bool)
    (threads : Z) (st : state W) (songs : list SongObject)
    (ytm_metadata : list YtmEntry) (w1 w2 : W) :
  let urls := str_split pipe request in
  let youtube_url := urls !!! 0%nat in
  let spotify_url := urls !!! 1%nat in
  let st' := State w2 (stdout st ++ [Fetching_YouTube_Music_playlist;
                                      Gathering_Spotify_Metadata spotify_url]) in
  classify request = PairedPlaylistURLs ->
  incorrect_format urls = false ->
  from_album P spotify_url output_format false generate_m3u threads true
    (world st) = (Ok (Some <$> songs), w1) ->
  get_metadata_for_playlist P youtube_url w1 = (Ok ytm_metadata, w2) ->
  ytm_metadata ≠ [] ->
  exists choice : list (nat * YtmEntry),
    Forall2 (fun song c => is_best_match ytm_metadata (song_name song) c.1 c.2)
      songs choice
    /\ parse_request P request output_format use_youtube generate_m3u threads st
       = (Ok (zip_with (fun song c => assigned song c.2) songs choice),
          State w2
            (stdout st'
             ++ concat (zip_with (fun song c => report song c.1 c.2)
                          songs choice))).
Proof.
  intros urls youtube_url spotify_url st' Hkind Hformat Halbum Hytm Hne.
  assert (parse_request P request output_format use_youtube generate_m3u threads st
          = (found <- for_each_song ytm_metadata (ytm_title <$> ytm_metadata)
                        (Some <$> songs);;
             ret (omap id found)) st') as Hrun.
  { erewrite run_paired_playlist by eassumption.
    destruct ytm_metadata; [done|reflexivity]. }
  destruct (run_for_each_song (W:=W) ytm_metadata songs Hne)
    as (choice & Hall & Hloop).
  exists choice. split; [exact Hall|].
  rewrite Hrun. unfold bind. rewrite Hloop. unfold ret. simpl.
  by rewrite omap_id_Some.
Qed.

End PairedPlaylist.

Lemma no_candidates_yield_an_empty_list_witness :
  parse_request (scripted no_candidates) paired_playlist_request None false false 1
    start
  = (Ok [],
     State [Called_from_album (py "open.spotify.com/playlist/3") false true;
            Called_get_metadata_for_playlist
              (py "music.youtube.com/playlist?list=OLAK")]
           [Fetching_YouTube_Music_playlist;
            Gathering_Spotify_Metadata (py "open.spotify.com/playlist/3");
            Can_not_find_download_links
              (py "music.youtube.com/playlist?list=OLAK")]).
Proof.
  apply (proj1 (no_candidates_yield_an_empty_list (scripted no_candidates)
                  paired_playlist_request None false false 1 start
                  [Some (song "Hello" "Adele" None);
                   Some (song "Skyfall" "Adele" None)]
                  [Called_from_album (py "open.spotify.com/playlist/3") false true]
                  [Called_from_album (py "open.spotify.com/playlist/3") false true;
                   Called_get_metadata_for_playlist
                     (py "music.youtube.com/playlist?list=OLAK")]
                  eq_refl eq_refl eq_refl eq_refl)).
Defined.

Lemma paired_playlist_uses_the_album_fetch_witness :
  exists choice : list (nat * YtmEntry),
    parse_request (scripted calm) paired_playlist_request None false false 1 start
    = (Ok (zip_with (fun song c => assigned song c.2)
             [song "Hello" "Adele" None; song "Skyfall" "Adele" None] choice),
       State [Called_from_album (py "open.spotify.com/playlist/3") false true;
              Called_get_metadata_for_playlist
                (py "music.youtube.com/playlist?list=OLAK")]
             ([Fetching_YouTube_Music_playlist;
               Gathering_Spotify_Metadata (py "open.spotify.com/playlist/3")]
              ++ concat (zip_with (fun song c => report song c.1 c.2)
                           [song "Hello" "Adele" None; song "Skyfall" "Adele" None]
                           choice))).
Proof.
  assert ([ {| ytm_title := py "Sky fall"; ytm_videoId := py "v1" |};
            {| ytm_title := py "Hello (Live)"; ytm_videoId := py "v2" |};
            {| ytm_title := py "fallSky"; ytm_videoId := py "v3" |} ] ≠ [])
    as Hne by discriminate.
  destruct (paired_playlist_uses_the_album_fetch (scripted calm)
              paired_playlist_request None false false 1 start
              [song "Hello" "Adele" None; song "Skyfall" "Adele" None]
              [ {| ytm_title := py "Sky fall"; ytm_videoId := py "v1" |};
                {| ytm_title := py "Hello (Live)"; ytm_videoId := py "v2" |};
                {| ytm_title := py "fallSky"; ytm_videoId := py "v3" |} ]
              [Called_from_album (py "open.spotify.com/playlist/3") false true]
              [Called_from_album (py "open.spotify.com/playlist/3") false true;
               Called_get_metadata_for_playlist
                 (py "music.youtube.com/playlist?list=OLAK")]
              eq_refl eq_refl eq_refl eq_refl Hne)
    as (choice & _ & Hrun).
  exists choice. exact Hrun.
Defined.

Lemma playlist_fetch_is_not_called :
  get_youtube_meta_playlist (scripted calm)
    (py "music.youtube.com/playlist?list=OLAK") (py "open.spotify.com/playlist/3")
    None false 1 start
  <> get_youtube_meta_playlist_spec (scripted calm)
       (py "music.youtube.com/playlist?list=OLAK")
       (py "open.spotify.com/playlist/3") None false 1 start
  /\ world (parse_request (scripted calm) paired_playlist_request None false false 1
              start).2
     = [Called_from_album (py "open.spotify.com/playlist/3") false true;
        Called_get_metadata_for_playlist (py "music.youtube.com/playlist?list=OLAK")]
  /\ parse_request (scripted half_downloaded) paired_playlist_request None false
       false 1 start
     = (Raise (Exn AttributeError (py "'NoneType' object has no attribute")),
        State [Called_from_album (py "open.spotify.com/playlist/3") false true;
               Called_get_metadata_for_playlist
                 (py "music.youtube.com/playlist?list=OLAK")]
              [Fetching_YouTube_Music_playlist;
               Gathering_Spotify_Metadata (py "open.spotify.com/playlist/3");
               Best_match_not_identical (py "Hello") (py "Hello (Live)") 6;
               Debug_match (py "Hello") (6, 1%nat, py "Hello (Live)")
                 (py "https://www.youtube.com/watch?v=v2")]).
Proof.
  split; [vm_compute; discriminate|]. split; vm_compute; reflexivity.
Qed.

(** ** Duplicate removal *)

Section Dedup.
Context {W : Type} (P : Providers W).

Lemma remove_duplicates_app (songs_list : list SongObject)
    (seen_songs : gset (list N)) (songs : list SongObject) :
  remove_duplicates P songs_list seen_songs songs
  = songs ++ remove_duplicates P songs_list seen_songs [].
Proof.
  revert seen_songs songs.
  induction songs_list as [|song rest IH]; intros seen_songs songs; simpl.
  - by rewrite app_nil_r.
  - case_bool_decide.
    + rewrite (IH _ (songs ++ [song])), (IH _ [song]). by rewrite <- app_assoc.
    + apply IH.
Qed.

Lemma remove_duplicates_cons (song : SongObject) (rest : list SongObject)
    (seen_songs : gset (list N)) :
  remove_duplicates P (song :: rest) seen_songs []
  = if bool_decide (file_name P song ∉ seen_songs)
    then song :: remove_duplicates P rest ({[file_name P song]} ∪ seen_songs) []
    else remove_duplicates P rest seen_songs [].
Proof.
  simpl. case_bool_decide; [|reflexivity].
  by rewrite remove_duplicates_app.
Qed.

Lemma remove_duplicates_sublist (songs_list : list SongObject)
    (seen_songs : gset (list N)) :
  remove_duplicates P songs_list seen_songs [] `sublist_of` songs_list.
Proof.
  revert seen_songs. induction songs_list as [|song rest IH]; intros seen_songs.
  - constructor.
  - rewrite remove_duplicates_cons. case_bool_decide.
    + apply sublist_skip, IH.
    + apply sublist_cons, IH.
Qed.

Lemma remove_duplicates_unseen (songs_list : list SongObject)
    (seen_songs : gset (list N)) (name : list N) :
  name ∈ file_name P <$> remove_duplicates P songs_list seen_songs [] ->
  name ∉ seen_songs.
Proof.
  revert seen_songs. induction songs_list as [|song rest IH]; intros seen_songs.
  - simpl. intros Hin. by apply elem_of_nil in Hin.
  - rewrite remove_duplicates_cons. case_bool_decide as Hnew.
    + rewrite fmap_cons, elem_of_cons. intros [->|Hin]; [exact Hnew|].
      apply IH in Hin. rewrite elem_of_union in Hin. tauto.
    + apply IH.
Qed.

Lemma remove_duplicates_NoDup (songs_list : list SongObject)
    (seen_songs : gset (list N)) :
  NoDup (file_name P <$> remove_duplicates P songs_list seen_songs []).
Proof.
  revert seen_songs. induction songs_list as [|song rest IH]; intros seen_songs.
  - constructor.
  - rewrite remove_duplicates_cons. case_bool_decide as Hnew; [|apply IH].
    rewrite fmap_cons. constructor; [|apply IH].
    intros Hin. apply remove_duplicates_unseen in Hin.
    apply Hin, elem_of_union. left. by apply elem_of_singleton.
Qed.

Lemma remove_duplicates_covers (songs_list : list SongObject)
    (seen_songs : gset (list N)) (song : SongObject) :
  song ∈ songs_list ->
  file_name P song ∈ seen_songs
  \/ file_name P song ∈ file_name P <$> remove_duplicates P songs_list seen_songs [].
Proof.
  revert seen_songs. induction songs_list as [|x rest IH]; intros seen_songs Hin.
  - by apply elem_of_nil in Hin.
  - rewrite remove_duplicates_cons. apply elem_of_cons in Hin as [->|Hin].
    + case_bool_decide as Hnew.
      * right. rewrite fmap_cons. apply elem_of_cons. by left.
      * left. exact Hnew.
    + case_bool_decide as Hnew.
      * destruct (IH ({[file_name P x]} ∪ seen_songs) Hin) as [Hseen|Hkept].
        -- apply elem_of_union in Hseen as [Hx|Hseen]; [|by left].
           apply elem_of_singleton in Hx. right. rewrite fmap_cons, Hx.
           apply elem_of_cons. by left.
        -- right. rewrite fmap_cons. apply elem_of_cons. by right.
      * apply IH, Hin.
Qed.

Lemma remove_duplicates_from (rest pre : list SongObject)
    (seen_songs : gset (list N)) :
  (forall name, name ∈ seen_songs <-> name ∈ file_name P <$> pre) ->
  remove_duplicates P rest seen_songs []
  = omap id
      (imap (fun i x =>
               if bool_decide (file_name P x
                               ∈ file_name P <$> take (length pre + i) (pre ++ rest))
               then None else Some x)
            rest).
Proof.
  revert pre seen_songs.
  induction rest as [|song rest IH]; intros pre seen_songs Hseen; [reflexivity|].
  rewrite remove_duplicates_cons, imap_cons.
  rewrite Nat.add_0_r, take_app_length.
  assert (forall i,
    take (length (pre ++ [song]) + i) ((pre ++ [song]) ++ rest)
    = take (length pre + S i) (pre ++ song :: rest)) as Hshift.
  { intros i. rewrite length_app, <- app_assoc. simpl. f_equal. lia. }
  case_bool_decide as Hnew.
  - rewrite bool_decide_eq_false_2 by (by rewrite <- Hseen).
    simpl. f_equal.
    rewrite (IH (pre ++ [song])).
    + f_equal. apply imap_ext. intros i x _. simpl. by rewrite Hshift.
    + intros name. rewrite fmap_app, elem_of_app, elem_of_union, Hseen.
      simpl. rewrite list_elem_of_singleton, elem_of_singleton. tauto.
  - rewrite bool_decide_eq_true_2 by (by rewrite <- Hseen).
    simpl. rewrite (IH (pre ++ [song])).
    + f_equal. apply imap_ext. intros i x _. simpl. by rewrite Hshift.
    + intros name. rewrite fmap_app, elem_of_app, Hseen.
      simpl. rewrite list_elem_of_singleton. split; [tauto|].
      intros [Hin| ->]; [exact Hin|]. by apply Hseen.
Qed.

Lemma remove_duplicates_stable_dedup (songs_list : list SongObject) :
  remove_duplicates P songs_list ∅ [] = stable_dedup (file_name P) songs_list.
Proof.
  rewrite (remove_duplicates_from songs_list []); [reflexivity|].
  intros name. simpl. split; intros Hin.
  - by apply elem_of_empty in Hin.
  - by apply elem_of_nil in Hin.
Qed.

Lemma for_each_request_accumulates (query : list (list N))
    (output_format : option (list N)) (use_youtube generate_m3u : bool)
    (threads : Z) (songs_list : list SongObject) (st : state W) :
  for_each_request P query output_format use_youtube generate_m3u threads
    songs_list st
  = (found <- for_each_request P query output_format use_youtube generate_m3u
                threads [];;
     ret (songs_list ++ found)) st.
Proof.
  revert songs_list st.
  induction query as [|request rest IH]; intros songs_list st; simpl.
  - unfold bind, ret. by rewrite app_nil_r.
  - destruct (endswith request _); [apply IH|].
    unfold bind, print. 
    destruct (parse_request _ _ _ _ _ _ st) as [[found|e] st1]; [|reflexivity].
    cbn [world stdout app].
    rewrite (IH (songs_list ++ found)), (IH found). unfold bind, ret.
    destruct (for_each_request _ _ _ _ _ _ _ _) as [[more|e] st2]; [|reflexivity].
    by rewrite app_assoc.
Qed.

(** C6: [parse_query] returns the stable duplicate removal, by file name,
    of the concatenated per-request results: the first song of each file name
    is kept, later ones are dropped, the kept songs are in the order of the
    input, and songs with the file names A, B, A, C give the first, second
    and fourth. *)
Theorem parse_query_keeps_first_occurrences (query : list (list N))
    (format : option (list N)) (use_youtube generate_m3u : bool) (threads : Z)
    (st : state W) :
  parse_query P query format use_youtube generate_m3u threads st
  = (songs_list <- for_each_request P query format use_youtube generate_m3u
                     threads [];;
     ret (stable_dedup (file_name P) songs_list)) st
  /\ (forall request rest,
        endswith request (py ".spotdlTrackingFile") = false ->
        for_each_request P (request :: rest) format use_youtube generate_m3u
          threads [] st
        = (found <- parse_request P request format use_youtube generate_m3u
                      threads;;
           print Linefeed;;
           more <- for_each_request P rest format use_youtube generate_m3u
                     threads [];;
           ret (found ++ more)) st)
  /\ (forall songs_list,
        let songs := remove_duplicates P songs_list ∅ [] in
        songs = stable_dedup (file_name P) songs_list
        /\ NoDup (file_name P <$> songs)
        /\ songs `sublist_of` songs_list
        /\ forall song, song ∈ songs_list ->
                        file_name P song ∈ file_name P <$> songs)
  /\ (forall a b a' c,
        file_name P a' = file_name P a ->
        file_name P b ≠ file_name P a ->
        file_name P c ≠ file_name P a ->
        file_name P c ≠ file_name P b ->
        remove_duplicates P [a; b; a'; c] ∅ [] = [a; b; c]).
Proof.
  split; [|split; [|split]].
  - unfold parse_query, bind.
    destruct (for_each_request _ _ _ _ _ _ _ _) as [[songs_list|e] st1];
      [|reflexivity].
    unfold ret. by rewrite remove_duplicates_stable_dedup.
  - intros request rest Hsuffix. simpl. rewrite Hsuffix.
    unfold bind, print.
    destruct (parse_request _ _ _ _ _ _ st) as [[found|e] st1]; [|reflexivity].
    cbn [world stdout app].
    rewrite (for_each_request_accumulates rest _ _ _ _ found). reflexivity.
  - intros songs_list songs. split; [apply remove_duplicates_stable_dedup|].
    split; [apply remove_duplicates_NoDup|].
    split; [apply remove_duplicates_sublist|].
    intros song Hin.
    destruct (remove_duplicates_covers songs_list ∅ song Hin) as [Hseen|Hkept];
      [by apply elem_of_empty in Hseen|exact Hkept].
  - intros a b a' c Ha' Hb Hc Hcb.
    rewrite !remove_duplicates_cons. rewrite Ha'.
    rewrite (bool_decide_eq_true_2 (file_name P a ∉ ∅))
      by apply not_elem_of_empty.
    rewrite (bool_decide_eq_true_2 (file_name P b ∉ _)).
    2:{ rewrite elem_of_union, elem_of_singleton.
        intros [?|Hin]; [done|by apply elem_of_empty in Hin]. }
    rewrite (bool_decide_eq_false_2 (file_name P a ∉ _)).
    2:{ intros Hout. apply Hout. rewrite !elem_of_union, !elem_of_singleton. tauto. }
    rewrite (bool_decide_eq_true_2 (file_name P c ∉ _)).
    2:{ rewrite !elem_of_union, !elem_of_singleton.
        intros [?|[?|Hin]]; [done|done|by apply elem_of_empty in Hin]. }
    reflexivity.
Qed.

End Dedup.

Lemma parse_query_keeps_first_occurrences_witness :
  remove_duplicates (scripted calm)
    [song "A" "x" (Some (py "first")); song "B" "x" None;
     song "A" "x" (Some (py "second")); song "C" "x" None] ∅ []
  = [song "A" "x" (Some (py "first")); song "B" "x" None; song "C" "x" None].
Proof.
  apply (proj2 (proj2 (proj2 (parse_query_keeps_first_occurrences (scripted calm)
                  [] None false false 1 start))));
    first [reflexivity | by apply (bool_decide_unpack _)].
Defined.

(** * Further properties *)

(** ** More on the title distance *)

Lemma sum_Z_cons (z : Z) (l : list Z) : sum_Z (z :: l) = z + sum_Z l.
Proof. reflexivity. Qed.

Lemma sum_Z_app (l k : list Z) : sum_Z (l ++ k) = sum_Z l + sum_Z k.
Proof. induction l as [|z l IH]; simpl; lia. Qed.

Lemma sum_Z_perm (l k : list Z) : l ≡ₚ k -> sum_Z l = sum_Z k.
Proof. induction 1; simpl; lia. Qed.

Lemma sum_Z_all_zero (l : list Z) : Forall (fun z => z = 0) l -> sum_Z l = 0.
Proof. induction 1; simpl; lia. Qed.

Lemma sum_Z_superset (f : N -> Z) (X Y : gset N) :
  X ⊆ Y -> (forall c, c ∈ Y -> c ∉ X -> f c = 0) ->
  sum_Z (f <$> elements Y) = sum_Z (f <$> elements X).
Proof.
  intros Hsub Hzero. rewrite (union_difference_L X Y Hsub) at 1.
  rewrite (sum_Z_perm _ (f <$> (elements X ++ elements (Y ∖ X)))).
  - rewrite fmap_app, sum_Z_app, (sum_Z_all_zero (f <$> elements (Y ∖ X))); [lia|].
    apply Forall_fmap, Forall_forall. intros c Hc. simpl.
    apply elem_of_elements, elem_of_difference in Hc as [HY HX]. by apply Hzero.
  - apply fmap_Permutation, elements_disj_union.
    intros c HX HYX. apply elem_of_difference in HYX as [_ Hout]. by apply Hout.
Qed.

(** The distance summed over any set that holds the characters of both
    strings. *)
Lemma distance_spec_over (X : gset N) (a b : list N) :
  characters_of (remove_whitespace a) ∪ characters_of (remove_whitespace b) ⊆ X ->
  distance_spec a b
  = sum_Z ((fun c => Z.abs (frequency (remove_whitespace a) c
                            - frequency (remove_whitespace b) c))
             <$> elements X).
Proof.
  intros Hsub. unfold distance_spec. cbv zeta. symmetry.
  apply sum_Z_superset; [exact Hsub|].
  intros c _ Hout. apply not_elem_of_union in Hout as [Ha Hb].
  rewrite !frequency_absent by assumption. reflexivity.
Qed.

Lemma sum_Z_le_add (f g h : N -> Z) (l : list N) :
  (forall c, f c <= g c + h c) ->
  sum_Z (f <$> l) <= sum_Z (g <$> l) + sum_Z (h <$> l).
Proof.
  intros Hle. induction l as [|c l IH]; [reflexivity|].
  rewrite !fmap_cons, !sum_Z_cons. specialize (Hle c). lia.
Qed.

(** X1: the title distance satisfies the triangle inequality. *)
Theorem compute_diff_triangle (a b c : list N) :
  compute_diff a c <= compute_diff a b + compute_diff b c.
Proof.
  rewrite !compute_diff_distance_spec.
  set (X := characters_of (remove_whitespace a)
            ∪ characters_of (remove_whitespace b)
            ∪ characters_of (remove_whitespace c)).
  rewrite (distance_spec_over X a c), (distance_spec_over X a b),
    (distance_spec_over X b c).
  - apply sum_Z_le_add. intros k. lia.
  - unfold X. apply elem_of_subseteq. intros k. rewrite !elem_of_union. tauto.
  - unfold X. apply elem_of_subseteq. intros k. rewrite !elem_of_union. tauto.
  - unfold X. apply elem_of_subseteq. intros k. rewrite !elem_of_union. tauto.
Qed.

Lemma sum_Z_indicator (x : N) (l : list N) :
  NoDup l -> x ∈ l ->
  sum_Z ((fun c => if decide (x = c) then 1 else 0) <$> l) = 1.
Proof.
  induction 1 as [|c l Hc Hl IH]; intros Hx; [by apply elem_of_nil in Hx|].
  rewrite fmap_cons, sum_Z_cons. destruct (decide (x = c)) as [->|Hne].
  - rewrite sum_Z_all_zero; [lia|]. apply Forall_fmap, Forall_forall.
    intros k Hk. simpl. destruct (decide (c = k)) as [->|]; [done|reflexivity].
  - apply elem_of_cons in Hx as [Hx|Hx]; [done|]. rewrite IH by assumption. lia.
Qed.

Lemma sum_Z_fmap_add (f g : N -> Z) (l : list N) :
  sum_Z ((fun c => f c + g c) <$> l) = sum_Z (f <$> l) + sum_Z (g <$> l).
Proof.
  induction l as [|c l IH]; [reflexivity|].
  rewrite !fmap_cons, !sum_Z_cons. lia.
Qed.

Lemma sum_frequency (X : gset N) (s : list N) :
  characters_of s ⊆ X ->
  sum_Z (frequency s <$> elements X) = Z.of_nat (length s).
Proof.
  induction s as [|x s IH]; intros Hsub.
  - apply sum_Z_all_zero, Forall_fmap, Forall_forall. by intros c _.
  - unfold characters_of in *. rewrite list_to_set_cons in Hsub.
    assert (frequency (x :: s) <$> elements X
            = (fun c => (if decide (x = c) then 1 else 0) + frequency s c)
                <$> elements X) as ->.
    { apply list_fmap_ext. intros _ c _. apply frequency_cons. }
    rewrite sum_Z_fmap_add, sum_Z_indicator, IH.
    + simpl length. lia.
    + intros c Hc. apply Hsub, elem_of_union. by right.
    + apply NoDup_elements.
    + apply elem_of_elements, Hsub, elem_of_union. left. by apply elem_of_singleton.
Qed.

Lemma frequency_nonneg (s : list N) (c : N) : 0 <= frequency s c.
Proof. unfold frequency. lia. Qed.

Lemma sum_Z_le (f g : N -> Z) (l : list N) :
  (forall c, f c <= g c) -> sum_Z (f <$> l) <= sum_Z (g <$> l).
Proof.
  intros Hle. induction l as [|c l IH]; [reflexivity|].
  rewrite !fmap_cons, !sum_Z_cons. specialize (Hle c). lia.
Qed.

Lemma sum_Z_fmap_sub (f g : N -> Z) (l : list N) :
  sum_Z ((fun c => f c - g c) <$> l) = sum_Z (f <$> l) - sum_Z (g <$> l).
Proof.
  induction l as [|c l IH]; [reflexivity|].
  rewrite !fmap_cons, !sum_Z_cons. lia.
Qed.

(** X2: the distance to the empty string is the number of non-whitespace
    characters; the distance of two strings lies between the difference and
    the sum of their numbers of non-whitespace characters. *)
Theorem compute_diff_and_lengths (a b : list N) :
  let n := Z.of_nat (length (remove_whitespace a)) in
  let m := Z.of_nat (length (remove_whitespace b)) in
  compute_diff a [] = n
  /\ Z.abs (n - m) <= compute_diff a b
  /\ compute_diff a b <= n + m.
Proof.
  intros n m.
  set (X := characters_of (remove_whitespace a)
            ∪ characters_of (remove_whitespace b)).
  assert (sum_Z (frequency (remove_whitespace a) <$> elements X) = n) as Hn.
  { apply sum_frequency. intros k Hk. apply elem_of_union. by left. }
  assert (sum_Z (frequency (remove_whitespace b) <$> elements X) = m) as Hm.
  { apply sum_frequency. intros k Hk. apply elem_of_union. by right. }
  assert (compute_diff a b
          = sum_Z ((fun c => Z.abs (frequency (remove_whitespace a) c
                                    - frequency (remove_whitespace b) c))
                     <$> elements X)) as Hab.
  { rewrite compute_diff_distance_spec. by apply distance_spec_over. }
  split; [|split].
  - unfold n. rewrite compute_diff_distance_spec.
    rewrite (distance_spec_over (characters_of (remove_whitespace a)) a []).
    + rewrite <- (sum_frequency (characters_of (remove_whitespace a))
                    (remove_whitespace a)) by reflexivity.
      f_equal. apply list_fmap_ext. intros _ c _. simpl.
      pose proof (frequency_nonneg (remove_whitespace a) c).
      change (frequency (remove_whitespace []) c) with 0. lia.
    + intros k Hk. apply elem_of_union in Hk as [Hk|Hk]; [exact Hk|].
      by apply elem_of_empty in Hk.
  - rewrite Hab, <- Hn, <- Hm, <- sum_Z_fmap_sub.
    apply Z.abs_le. split.
    + rewrite <- (Z.opp_involutive (sum_Z (_ <$> elements X))) at 1.
      apply Z.opp_le_mono. rewrite !Z.opp_involutive.
      etransitivity; [|apply (sum_Z_le (fun c => frequency (remove_whitespace b) c
                                                 - frequency (remove_whitespace a) c))].
      * rewrite !sum_Z_fmap_sub. lia.
      * intros c. simpl. lia.
    + apply sum_Z_le. intros c. simpl. lia.
  - rewrite Hab, <- Hn, <- Hm. apply sum_Z_le_add. intros c.
    pose proof (frequency_nonneg (remove_whitespace a) c).
    pose proof (frequency_nonneg (remove_whitespace b) c). lia.
Qed.

(** X3: the distance depends only on the multisets of non-whitespace
    characters of its arguments: rearranging the characters of either string,
    or changing its whitespace, does not change it. *)
Theorem compute_diff_up_to_permutation (a a' b b' : list N) :
  remove_whitespace a ≡ₚ remove_whitespace a' ->
  remove_whitespace b ≡ₚ remove_whitespace b' ->
  compute_diff a b = compute_diff a' b'.
Proof.
  intros Ha Hb. rewrite !compute_diff_distance_spec. unfold distance_spec. cbv zeta.
  unfold characters_of.
  rewrite (list_to_set_perm_L _ _ Ha), (list_to_set_perm_L _ _ Hb).
  f_equal. apply list_fmap_ext. intros _ c _. simpl.
  by rewrite (proj2 (frequency_permutation _ _) Ha c),
    (proj2 (frequency_permutation _ _) Hb c).
Qed.

Lemma compute_diff_up_to_permutation_witness :
  compute_diff (py "Sky fall") (py "Hello") = compute_diff (py "fall Sky") (py "olleH").
Proof.
  apply compute_diff_up_to_permutation.
  - change (remove_whitespace (py "Sky fall")) with (py "Sky" ++ py "fall").
    change (remove_whitespace (py "fall Sky")) with (py "fall" ++ py "Sky").
    apply Permutation_app_comm.
  - change (remove_whitespace (py "olleH")) with (reverse (py "Hello")).
    change (remove_whitespace (py "Hello")) with (py "Hello").
    symmetry. apply reverse_Permutation.
Defined.

(** ** More on the matching loop *)

Lemma compute_diff_nonneg (a b : list N) : 0 <= compute_diff a b.
Proof.
  rewrite compute_diff_distance_spec. apply sum_Z_nonneg, abs_terms_nonneg.
Qed.

Section MatchingLoop.
Context {W : Type}.

Lemma run_find_best_match_None (ytm_metadata : list YtmEntry)
    (ytm_titles : list (list N)) (st : state W) :
  find_best_match ytm_metadata ytm_titles None st
  = (Raise (Exn AttributeError (py "'NoneType' object has no attribute")), st).
Proof. reflexivity. Qed.

Lemma run_find_best_match_no_titles (ytm_metadata : list YtmEntry)
    (song : SongObject) (st : state W) :
  find_best_match ytm_metadata [] (Some song) st
  = (Raise (Exn ValueError (py "min() arg is an empty sequence")), st).
Proof. reflexivity. Qed.

(** X4: when the matching loop returns, it has called no collaborator, the
    returned list has a song at every position of the fetched list, in the
    same order, and each differs from the fetched song only in its link,
    which is the watch prefix followed by the video id of one of the
    candidates. *)
Theorem matching_loop_changes_only_the_link (ytm_metadata : list YtmEntry)
    (song_list result : list (option SongObject)) (st st' : state W) :
  for_each_song ytm_metadata (ytm_title <$> ytm_metadata) song_list st
  = (Ok result, st') ->
  world st' = world st
  /\ Forall2
       (fun before after =>
          exists old new entry,
            before = Some old /\ after = Some new /\ entry ∈ ytm_metadata
            /\ youtube_link new = Some (youtube_watch_prefix ++ ytm_videoId entry)
            /\ raw_track_meta new = raw_track_meta old
            /\ raw_album_meta new = raw_album_meta old
            /\ raw_artist_meta new = raw_artist_meta old
            /\ lyrics new = lyrics old)
       song_list result.
Proof.
  revert result st st'.
  induction song_list as [|slot song_list IH]; intros result st st' Hrun.
  - simpl in Hrun. injection Hrun as <- <-. split; [reflexivity|constructor].
  - simpl in Hrun. unfold bind at 1 in Hrun.
    destruct slot as [song|]; [|rewrite run_find_best_match_None in Hrun; discriminate].
    destruct ytm_metadata as [|first others] eqn:Hmeta.
    { rewrite run_find_best_match_no_titles in Hrun. discriminate. }
    rewrite <- Hmeta in *.
    destruct (run_find_best_match (W:=W) ytm_metadata song)
      as (idx & entry & [Hentry _] & Hone); [by rewrite Hmeta|].
    rewrite Hone in Hrun. unfold bind at 1 in Hrun.
    destruct (for_each_song _ _ song_list _) as [[rest|e] st1] eqn:Hrest;
      [|discriminate].
    injection Hrun as <- <-.
    destruct (IH _ _ _ Hrest) as [Hworld Hall].
    split; [exact Hworld|]. constructor; [|exact Hall].
    exists song, (assigned song entry), entry.
    repeat split. by apply list_elem_of_lookup_2 in Hentry.
Qed.

(** X6: when a candidate title has distance 0 to the song name, the song
    gets the link of the first such candidate and only the debug line is
    printed, no mismatch line. *)
Theorem exact_title_is_matched_silently (ytm_metadata : list YtmEntry)
    (song : SongObject) (j : nat) (exact : YtmEntry) :
  ytm_metadata !! j = Some exact ->
  compute_diff (song_name song) (ytm_title exact) = 0 ->
  (forall i earlier, (i < j)%nat -> ytm_metadata !! i = Some earlier ->
                     compute_diff (song_name song) (ytm_title earlier) ≠ 0) ->
  forall st : state W,
    find_best_match ytm_metadata (ytm_title <$> ytm_metadata) (Some song) st
    = (Ok (Some (set_youtube_link song
                   (youtube_watch_prefix ++ ytm_videoId exact))),
       State (world st)
         (stdout st
          ++ [Debug_match (song_name song) (0, j, ytm_title exact)
                (youtube_watch_prefix ++ ytm_videoId exact)])).
Proof.
  intros Hj Hzero Hfirst st.
  destruct (run_find_best_match (W:=W) ytm_metadata song)
    as (idx & entry & [Hentry Hbest] & Hone).
  { intros ->. discriminate Hj. }
  destruct (Hbest j exact Hj) as [Hle Htie].
  pose proof (compute_diff_nonneg (song_name song) (ytm_title entry)) as Hpos.
  assert (compute_diff (song_name song) (ytm_title entry) = 0) as Hzero' by lia.
  assert (idx = j) as ->.
  { destruct (decide (idx = j)) as [|Hne]; [assumption|].
    assert (idx < j)%nat as Hlt by (specialize (Htie ltac:(lia)); lia).
    destruct (Hfirst idx entry Hlt Hentry Hzero'). }
  assert (entry = exact) as -> by congruence.
  rewrite Hone. unfold report, assigned. cbv zeta.
  rewrite Hzero'. reflexivity.
Qed.

End MatchingLoop.

(** ** More on the dispatch *)

Lemma str_split_from_first (sep : N) (cur a b : list N) :
  sep ∉ a ->
  str_split_from sep cur (a ++ [sep] ++ b) = (cur ++ a) :: str_split sep b.
Proof.
  revert cur. induction a as [|c a IH]; intros cur Ha; simpl.
  - rewrite bool_decide_eq_true_2 by reflexivity. by rewrite app_nil_r.
  - apply not_elem_of_cons in Ha as [Hc Ha].
    rewrite bool_decide_eq_false_2 by congruence.
    rewrite IH by assumption. by rewrite <- app_assoc.
Qed.

Lemma str_split_first (sep : N) (a b : list N) :
  sep ∉ a -> str_split sep (a ++ [sep] ++ b) = a :: str_split sep b.
Proof. intros Ha. unfold str_split at 1. by rewrite str_split_from_first. Qed.

Lemma incorrect_format_two_segments (first second : list N) (more : list (list N)) :
  incorrect_format (first :: second :: more)
  = negb (str_in (py "youtube") first) || negb (str_in (py "spotify") second).
Proof. reflexivity. Qed.

Section DispatchMore.
Context {W : Type} (P : Providers W).

(** X7: a paired request that fails the format test of line 61 or 77 (for
    instance with the two URLs in the wrong order) prints the format message
    of its branch and yields the empty list, and no collaborator is called. *)
Theorem incorrect_format_is_reported_without_a_fetch (request : list N)
    (output_format : option (list N)) (use_youtube generate_m3u : bool)
    (threads : Z) (st : state W) :
  incorrect_format (str_split pipe request) = true ->
  (classify request = PairedTrackURLs ->
   parse_request P request output_format use_youtube generate_m3u threads st
   = (Ok [], State (world st) (stdout st ++ [Incorrect_format_YouTubeURL])))
  /\ (classify request = PairedPlaylistURLs ->
      parse_request P request output_format use_youtube generate_m3u threads st
      = (Ok [], State (world st) (stdout st ++ [Incorrect_format_YouTubeMusicURL]))).
Proof.
  intros Hformat. split; intros Hkind; rewrite parse_request_handle, Hkind;
    unfold handle, paired_track_urls, paired_playlist_urls; rewrite Hformat;
    reflexivity.
Qed.

(** X8: both paired branches read only the first two segments of the
    split: what follows a second pipe does not change what they do. *)
Theorem segments_after_the_second_are_ignored (yt sp extra : list N)
    (output_format : option (list N)) (generate_m3u : bool) (threads : Z) :
  pipe ∉ yt -> pipe ∉ sp ->
  paired_track_urls P (yt ++ [pipe] ++ sp ++ [pipe] ++ extra) output_format
  = paired_track_urls P (yt ++ [pipe] ++ sp) output_format
  /\ paired_playlist_urls P (yt ++ [pipe] ++ sp ++ [pipe] ++ extra) output_format
       generate_m3u threads
     = paired_playlist_urls P (yt ++ [pipe] ++ sp) output_format generate_m3u
         threads.
Proof.
  intros Hyt Hsp. unfold paired_track_urls, paired_playlist_urls.
  rewrite (str_split_first pipe yt (sp ++ [pipe] ++ extra)) by assumption.
  rewrite (str_split_first pipe sp extra) by assumption.
  rewrite (str_split_pair pipe yt sp) by assumption.
  rewrite !incorrect_format_two_segments. split; reflexivity.
Qed.

(** X9: when the file of a paired track already exists, with the format
    defaulting to mp3, [get_youtube_meta_track] prints the skip line and
    returns [None] after the file probe, without a lyrics lookup, and the
    request yields the empty list. *)
Theorem downloaded_paired_track_is_skipped (request : list N)
    (output_format : option (list N)) (use_youtube generate_m3u : bool)
    (threads : Z) (st : state W) (meta : TrackMeta) (artist album : OpaqueMeta)
    (w1 w2 : W) :
  let urls := str_split pipe request in
  let converted_file_name :=
    create_file_name P (track_name meta) (artist_name <$> track_artists meta) in
  classify request = PairedTrackURLs ->
  incorrect_format urls = false ->
  from_url P (urls !!! 1%nat) (world st) = (Ok (meta, artist, album), w1) ->
  is_file P (converted_file_name ++ py "." ++ default (py "mp3") output_format) w1
  = (Ok true, w2) ->
  get_youtube_meta_track P (urls !!! 0%nat) (urls !!! 1%nat) output_format st
  = (Ok None,
     State w2 (stdout st ++ [Gathering_Spotify_Metadata (urls !!! 1%nat);
                             Skipping_already_downloaded converted_file_name]))
  /\ parse_request P request output_format use_youtube generate_m3u threads st
     = (Ok [],
        State w2 (stdout st ++ [Fetching_YouTube_video;
                                Gathering_Spotify_Metadata (urls !!! 1%nat);
                                Skipping_already_downloaded converted_file_name])).
Proof.
  intros urls converted_file_name Hkind Hformat Hurl Hfile. split.
  - unfold get_youtube_meta_track, bind, print, call, ret.
    cbn [world stdout]. rewrite Hurl. cbn [world stdout].
    fold converted_file_name. rewrite Hfile. cbn [world stdout].
    by rewrite <- app_assoc.
  - rewrite parse_request_handle, Hkind. unfold handle, paired_track_urls.
    fold urls. rewrite Hformat.
    unfold get_youtube_meta_track, bind, print, call, ret.
    cbn [world stdout]. rewrite Hurl. cbn [world stdout].
    fold converted_file_name. rewrite Hfile. cbn [world stdout].
    rewrite <- !app_assoc. reflexivity.
Qed.

(** X10: the four outcomes of a single-track request: a song with a link
    is returned alone; a song without a link gives the empty list; [None]
    from the fetch raises [AttributeError]; and an exception raised by the
    fetch itself, of whatever class, leaves [parse_request], since the call of
    line 90 stands before the [try] of line 91. *)
Theorem single_track_outcomes (request : list N)
    (output_format : option (list N)) (use_youtube generate_m3u : bool)
    (threads : Z) (st : state W) (w' : W) :
  classify request = SingleTrack ->
  let st' := State w' (stdout st ++ [Fetching_Song]) in
  (forall song link,
      from_spotify_url P request output_format use_youtube (world st)
      = (Ok (Some song), w') ->
      youtube_link song = Some link ->
      parse_request P request output_format use_youtube generate_m3u threads st
      = (Ok [song], st'))
  /\ (forall song,
        from_spotify_url P request output_format use_youtube (world st)
        = (Ok (Some song), w') ->
        youtube_link song = None ->
        parse_request P request output_format use_youtube generate_m3u threads st
        = (Ok [], st'))
  /\ (from_spotify_url P request output_format use_youtube (world st)
      = (Ok None, w') ->
      parse_request P request output_format use_youtube generate_m3u threads st
      = (Raise (Exn AttributeError (py "'NoneType' object has no attribute")), st'))
  /\ (forall e,
        from_spotify_url P request output_format use_youtube (world st)
        = (Raise e, w') ->
        parse_request P request output_format use_youtube generate_m3u threads st
        = (Raise e, st')).
Proof.
  intros Hkind st'.
  assert (forall r,
    from_spotify_url P request output_format use_youtube (world st) = (r, w') ->
    parse_request P request output_format use_youtube generate_m3u threads st
    = match r with
      | Ok (Some song) =>
          (Ok (if youtube_link song is Some _ then [song] else []), st')
      | Ok None =>
          (Raise (Exn AttributeError (py "'NoneType' object has no attribute")), st')
      | Raise e => (Raise e, st')
      end) as Hrun.
  { intros r Hr. rewrite parse_request_handle, Hkind.
    unfold handle, single_track, bind, print, call, try_except, getattr, ret, raise.
    cbn [world stdout]. rewrite Hr.
    destruct r as [[song|]|e]; cbn [world stdout]; try reflexivity.
    destruct (youtube_link song); reflexivity. }
  split; [|split; [|split]].
  - intros song link Hr Hlink. rewrite (Hrun _ Hr), Hlink. reflexivity.
  - intros song Hr Hlink. rewrite (Hrun _ Hr), Hlink. reflexivity.
  - intros Hr. apply (Hrun _ Hr).
  - intros e Hr. apply (Hrun _ Hr).
Qed.

(** X11: when the bulk fetch or the search of a request returns a list,
    the request returns that list without its empty slots: the same songs, in
    the same order, after one printed line. *)
Theorem fetched_lists_lose_only_their_empty_slots (request : list N)
    (output_format : option (list N)) (use_youtube generate_m3u : bool)
    (threads : Z) (st : state W) (song_list : list (option SongObject)) (w' : W) :
  (forall fetch,
      bulk_fetch P (classify request) request output_format use_youtube
        generate_m3u threads = Some fetch ->
      fetch (world st) = (Ok song_list, w') ->
      exists line,
        parse_request P request output_format use_youtube generate_m3u threads st
        = (Ok (omap id song_list), State w' (stdout st ++ [line])))
  /\ (classify request = SearchTerm ->
      from_search_term P request output_format use_youtube (world st)
      = (Ok song_list, w') ->
      parse_request P request output_format use_youtube generate_m3u threads st
      = (Ok (omap id song_list),
         State w' (stdout st ++ [Searching_Spotify request])))
  /\ (forall song, song ∈ omap id song_list <-> Some song ∈ song_list)
  /\ Some <$> omap id song_list `sublist_of` song_list.
Proof.
  split; [|split; [|split]].
  - intros fetch Hfetch Hok.
    assert (exists line,
      handle P (classify request) request output_format use_youtube generate_m3u
        threads = (print line;; call fetch)) as [line Hline].
    { destruct (classify request); simpl in *; try discriminate Hfetch;
        injection Hfetch as <-; eauto. }
    exists line. rewrite parse_request_handle, Hline.
    unfold bind, print, call, ret. cbn [world stdout]. by rewrite Hok.
  - intros Hkind Hok. rewrite parse_request_handle, Hkind.
    unfold handle, search_term, bind, print, call, try_except, ret.
    cbn [world stdout]. by rewrite Hok.
  - intros song. rewrite list_elem_of_omap. split.
    + intros (slot & Hin & Hslot). simpl in Hslot. by subst slot.
    + intros Hin. by exists (Some song).
  - induction song_list as [|[song|] song_list IH]; simpl.
    + constructor.
    + by apply sublist_skip.
    + by apply sublist_cons.
Qed.

(** X12: a request that does not contain the catalog marker
    "open.spotify.com" reaches only the last two branches: it is the saved
    library when it is exactly "saved", and a search term otherwise. *)
Theorem requests_without_the_catalog_marker (request : list N)
    (output_format : option (list N)) (use_youtube generate_m3u : bool)
    (threads : Z) :
  str_in (py "open.spotify.com") request = false ->
  classify request
  = (if bool_decide (request = py "saved") then SavedLibrary else SearchTerm)
  /\ parse_request P request output_format use_youtube generate_m3u threads
     = (song_list <-
          (if bool_decide (request = py "saved")
           then print Fetching_Saved_Songs;;
                call (from_saved_tracks P output_format use_youtube threads)
           else search_term P request output_format use_youtube);;
        ret (omap id song_list)).
Proof.
  intros Hno.
  assert (classify request
          = (if bool_decide (request = py "saved") then SavedLibrary
             else SearchTerm)) as Hkind.
  { unfold classify, priority_order. rewrite !filter_cons, filter_nil.
    assert (guard PairedTrackURLs request = false) as ->
      by (unfold guard; by rewrite Hno, andb_false_r).
    assert (guard PairedPlaylistURLs request = false) as ->
      by (unfold guard; by rewrite Hno, andb_false_r).
    assert (guard SingleTrack request = false) as ->
      by (unfold guard; by rewrite Hno).
    assert (guard Album request = false) as -> by (unfold guard; by rewrite Hno).
    assert (guard Playlist request = false) as ->
      by (unfold guard; by rewrite Hno).
    assert (guard Artist request = false) as -> by (unfold guard; by rewrite Hno).
    unfold guard. by case_bool_decide. }
  split; [exact Hkind|]. rewrite parse_request_handle, Hkind.
  case_bool_decide; reflexivity.
Qed.

End DispatchMore.

Section PairedErrors.
Context {W : Type} (P : Providers W).

(** X13: the paired branches have no handler: an exception of the
    metadata fetch of a paired track, of the album fetch of a paired playlist
    (YouTube Music is then not asked), or of the YouTube Music fetch leaves
    [parse_request]. *)
Theorem paired_fetch_errors_propagate (request : list N)
    (output_format : option (list N)) (use_youtube generate_m3u : bool)
    (threads : Z) (st : state W) (e : exn) :
  let urls := str_split pipe request in
  let youtube_url := urls !!! 0%nat in
  let spotify_url := urls !!! 1%nat in
  incorrect_format urls = false ->
  (classify request = PairedTrackURLs ->
   forall w1,
     from_url P spotify_url (world st) = (Raise e, w1) ->
     parse_request P request output_format use_youtube generate_m3u threads st
     = (Raise e,
        State w1 (stdout st ++ [Fetching_YouTube_video;
                                Gathering_Spotify_Metadata spotify_url])))
  /\ (classify request = PairedPlaylistURLs ->
      forall w1,
        from_album P spotify_url output_format false generate_m3u threads true
          (world st) = (Raise e, w1) ->
        parse_request P request output_format use_youtube generate_m3u threads st
        = (Raise e,
           State w1 (stdout st ++ [Fetching_YouTube_Music_playlist;
                                   Gathering_Spotify_Metadata spotify_url])))
  /\ (classify request = PairedPlaylistURLs ->
      forall song_list w1 w2,
        from_album P spotify_url output_format false generate_m3u threads true
          (world st) = (Ok song_list, w1) ->
        get_metadata_for_playlist P youtube_url w1 = (Raise e, w2) ->
        parse_request P request output_format use_youtube generate_m3u threads st
        = (Raise e,
           State w2 (stdout st ++ [Fetching_YouTube_Music_playlist;
                                   Gathering_Spotify_Metadata spotify_url]))).
Proof.
  intros urls youtube_url spotify_url Hformat. split; [|split].
  - intros Hkind w1 Hurl. rewrite parse_request_handle, Hkind.
    unfold handle, paired_track_urls. fold urls. rewrite Hformat.
    unfold get_youtube_meta_track, bind, print, call, ret.
    cbn [world stdout]. fold spotify_url. rewrite Hurl.
    by rewrite <- app_assoc.
  - intros Hkind w1 Halbum. rewrite parse_request_handle, Hkind.
    unfold handle, paired_playlist_urls. fold urls. rewrite Hformat.
    unfold get_youtube_meta_playlist, bind, print, call, ret.
    cbn [world stdout]. fold spotify_url. rewrite Halbum.
    by rewrite <- app_assoc.
  - intros Hkind song_list w1 w2 Halbum Hytm. rewrite parse_request_handle, Hkind.
    unfold handle, paired_playlist_urls. fold urls. rewrite Hformat.
    unfold get_youtube_meta_playlist, bind, print, call, ret.
    cbn [world stdout]. fold spotify_url youtube_url. rewrite Halbum.
    cbn [world stdout]. rewrite Hytm. by rewrite <- app_assoc.
Qed.

Lemma for_each_song_empty_slot (ytm_metadata : list YtmEntry)
    (song_list : list (option SongObject)) (st : state W) :
  ytm_metadata ≠ [] -> None ∈ song_list ->
  exists out,
    for_each_song ytm_metadata (ytm_title <$> ytm_metadata) song_list st
    = (Raise (Exn AttributeError (py "'NoneType' object has no attribute")),
       State (world st) out).
Proof.
  intros Hne. revert st.
  induction song_list as [|slot song_list IH]; intros st Hin.
  - by apply elem_of_nil in Hin.
  - simpl. unfold bind at 1. destruct slot as [song|].
    + apply elem_of_cons in Hin as [Hin|Hin]; [discriminate|].
      destruct (run_find_best_match (W:=W) ytm_metadata song Hne)
        as (idx & entry & _ & Hone).
      rewrite Hone.
      destruct (IH (State (world st) (stdout st ++ report song idx entry)) Hin)
        as (out & Hrest).
      exists out. unfold bind at 1. by rewrite Hrest.
    + exists (stdout st). rewrite run_find_best_match_None. by destruct st.
Qed.

(** X5: when the album fetch of a paired-playlist request returns a list
    with an empty ([None]) slot and there are candidates, [song.song_name]
    fails on that slot: the request raises [AttributeError] and yields no
    list. *)
Theorem paired_playlist_raises_on_an_empty_slot (request : list N)
    (output_format : option (list N)) (use_youtube generate_m3u : bool)
    (threads : Z) (st : state W) (song_list : list (option SongObject))
    (ytm_metadata : list YtmEntry) (w1 w2 : W) :
  let urls := str_split pipe request in
  classify request = PairedPlaylistURLs ->
  incorrect_format urls = false ->
  from_album P (urls !!! 1%nat) output_format false generate_m3u threads true
    (world st) = (Ok song_list, w1) ->
  get_metadata_for_playlist P (urls !!! 0%nat) w1 = (Ok ytm_metadata, w2) ->
  ytm_metadata ≠ [] ->
  None ∈ song_list ->
  exists out,
    parse_request P request output_format use_youtube generate_m3u threads st
    = (Raise (Exn AttributeError (py "'NoneType' object has no attribute")),
       State w2 out).
Proof.
  intros urls Hkind Hformat Halbum Hytm Hne Hslot.
  assert (parse_request P request output_format use_youtube generate_m3u threads st
          = (songs <- for_each_song ytm_metadata (ytm_title <$> ytm_metadata)
                        song_list;;
             ret (omap id songs))
              (State w2 (stdout st ++ [Fetching_YouTube_Music_playlist;
                                       Gathering_Spotify_Metadata (urls !!! 1%nat)])))
    as Hrun.
  { erewrite run_paired_playlist by eassumption.
    destruct ytm_metadata; [done|reflexivity]. }
  destruct (for_each_song_empty_slot ytm_metadata song_list
              (State w2 (stdout st ++ [Fetching_YouTube_Music_playlist;
                                       Gathering_Spotify_Metadata (urls !!! 1%nat)]))
              Hne Hslot) as (out & Hloop).
  exists out. rewrite Hrun. unfold bind. by rewrite Hloop.
Qed.

End PairedErrors.

(** ** More on the batch *)

Section Batch.
Context {W : Type} (P : Providers W).

Lemma for_each_request_app (query1 query2 : list (list N))
    (output_format : option (list N)) (use_youtube generate_m3u : bool)
    (threads : Z) (songs_list : list SongObject) (st : state W) :
  for_each_request P (query1 ++ query2) output_format use_youtube generate_m3u
    threads songs_list st
  = (found <- for_each_request P query1 output_format use_youtube generate_m3u
                threads songs_list;;
     for_each_request P query2 output_format use_youtube generate_m3u threads
       found) st.
Proof.
  revert songs_list st.
  induction query1 as [|request rest IH]; intros songs_list st; [reflexivity|].
  simpl. destruct (endswith request _); [apply IH|].
  unfold bind, print.
  destruct (parse_request _ _ _ _ _ _ st) as [[found|e] st1]; [|reflexivity].
  cbn [world stdout]. rewrite IH. reflexivity.
Qed.

(** X14: a batch made of two parts returns the duplicate removal of what
    the first part gathers followed by what the second part gathers from the
    state the first left. *)
Theorem batches_compose (query1 query2 : list (list N))
    (format : option (list N)) (use_youtube generate_m3u : bool) (threads : Z)
    (st st1 st2 : state W) (found1 found2 : list SongObject) :
  for_each_request P query1 format use_youtube generate_m3u threads [] st
  = (Ok found1, st1) ->
  for_each_request P query2 format use_youtube generate_m3u threads [] st1
  = (Ok found2, st2) ->
  parse_query P (query1 ++ query2) format use_youtube generate_m3u threads st
  = (Ok (stable_dedup (file_name P) (found1 ++ found2)), st2).
Proof.
  intros H1 H2. unfold parse_query, bind at 1.
  rewrite for_each_request_app. unfold bind at 1. rewrite H1.
  rewrite for_each_request_accumulates. unfold bind at 1. rewrite H2.
  unfold ret. by rewrite remove_duplicates_stable_dedup.
Qed.

(** X15: [parse_query] has no handler: when [parse_request] raises on a
    request that is not skipped, [parse_query] raises the same exception, the
    songs gathered before are not returned and the later requests are not
    handled. *)
Theorem an_error_ends_the_batch (query1 query2 : list (list N))
    (request : list N) (format : option (list N))
    (use_youtube generate_m3u : bool) (threads : Z) (st st1 st2 : state W)
    (found : list SongObject) (e : exn) :
  for_each_request P query1 format use_youtube generate_m3u threads [] st
  = (Ok found, st1) ->
  endswith request (py ".spotdlTrackingFile") = false ->
  parse_request P request format use_youtube generate_m3u threads st1
  = (Raise e, st2) ->
  parse_query P (query1 ++ request :: query2) format use_youtube generate_m3u
    threads st
  = (Raise e, st2).
Proof.
  intros H1 Hsuffix Hraise. unfold parse_query, bind at 1.
  rewrite for_each_request_app. unfold bind at 1. rewrite H1.
  simpl. rewrite Hsuffix. unfold bind at 1. by rewrite Hraise.
Qed.

(** X16: requests ending in ".spotdlTrackingFile" take no part in a
    batch: removing them changes neither the result nor the effects, and a
    batch of such requests returns the empty list with no call and no
    output. *)
Theorem tracking_files_are_ignored (query : list (list N))
    (format : option (list N)) (use_youtube generate_m3u : bool) (threads : Z)
    (st : state W) :
  parse_query P
    (filter (fun request => endswith request (py ".spotdlTrackingFile") = false)
       query)
    format use_youtube generate_m3u threads st
  = parse_query P query format use_youtube generate_m3u threads st
  /\ (Forall (fun request => endswith request (py ".spotdlTrackingFile") = true)
        query ->
      parse_query P query format use_youtube generate_m3u threads st
      = (Ok [], st)).
Proof.
  assert (forall songs_list st,
    for_each_request P
      (filter (fun request => endswith request (py ".spotdlTrackingFile") = false)
         query)
      format use_youtube generate_m3u threads songs_list st
    = for_each_request P query format use_youtube generate_m3u threads songs_list
        st)
    as Hsame.
  { clear st. induction query as [|request rest IH]; intros songs_list st;
      [reflexivity|].
    rewrite filter_cons. simpl.
    destruct (endswith request _) eqn:Hsuffix.
    - rewrite decide_False by discriminate. apply IH.
    - rewrite decide_True by reflexivity. simpl. rewrite Hsuffix.
      unfold bind, print.
      destruct (parse_request _ _ _ _ _ _ st) as [[found|e] st1]; [|reflexivity].
      cbn [world stdout]. apply IH. }
  split.
  - unfold parse_query, bind. by rewrite Hsame.
  - intros Hall. clear Hsame. unfold parse_query, bind.
    assert (for_each_request P query format use_youtube generate_m3u threads [] st
            = (Ok [], st)) as ->; [|reflexivity].
    induction Hall as [|request rest Hsuffix _ IH]; [reflexivity|].
    simpl. rewrite Hsuffix. exact IH.
Qed.

Lemma remove_duplicates_distinct (songs_list : list SongObject)
    (seen_songs : gset (list N)) :
  NoDup (file_name P <$> songs_list) ->
  (forall song, song ∈ songs_list -> file_name P song ∉ seen_songs) ->
  remove_duplicates P songs_list seen_songs [] = songs_list.
Proof.
  revert seen_songs.
  induction songs_list as [|song rest IH]; intros seen_songs Hdistinct Hnew;
    [reflexivity|].
  rewrite remove_duplicates_cons.
  rewrite bool_decide_eq_true_2 by (apply Hnew, elem_of_cons; by left).
  rewrite fmap_cons in Hdistinct. apply NoDup_cons in Hdistinct as [Hfirst Hrest].
  f_equal. apply IH; [exact Hrest|].
  intros other Hin Hseen. apply elem_of_union in Hseen as [Hsame|Hseen].
  - apply elem_of_singleton in Hsame. apply Hfirst. rewrite <- Hsame.
    by apply list_elem_of_fmap_2.
  - apply (Hnew other); [apply elem_of_cons; by right|exact Hseen].
Qed.

(** X17: the duplicate removal returns a list of distinct file names
    unchanged, is idempotent, and never returns more songs than it is
    given. *)
Theorem duplicate_removal_is_idempotent (songs_list : list SongObject) :
  (NoDup (file_name P <$> songs_list) ->
   remove_duplicates P songs_list ∅ [] = songs_list)
  /\ remove_duplicates P (remove_duplicates P songs_list ∅ []) ∅ []
     = remove_duplicates P songs_list ∅ []
  /\ (length (remove_duplicates P songs_list ∅ []) <= length songs_list)%nat.
Proof.
  split; [|split].
  - intros Hdistinct. apply remove_duplicates_distinct; [exact Hdistinct|].
    intros song _. apply not_elem_of_empty.
  - apply remove_duplicates_distinct; [apply remove_duplicates_NoDup|].
    intros song _. apply not_elem_of_empty.
  - apply sublist_length, remove_duplicates_sublist.
Qed.

End Batch.

(** ** Concrete runs of the further properties *)

Lemma matching_loop_changes_only_the_link_witness :
  for_each_song two_candidates (ytm_title <$> two_candidates)
    [Some (song "Skyfall" "Adele" None)] start
  = (Ok [Some (song "Skyfall" "Adele"
                 (Some (py "https://www.youtube.com/watch?v=v1")))],
     State []
       [Debug_match (py "Skyfall") (0, 0%nat, py "Sky fall")
          (py "https://www.youtube.com/watch?v=v1")])
  /\ world (State (W:=list call_record) []
              [Debug_match (py "Skyfall") (0, 0%nat, py "Sky fall")
                 (py "https://www.youtube.com/watch?v=v1")])
     = world start.
Proof.
  assert (for_each_song two_candidates (ytm_title <$> two_candidates)
            [Some (song "Skyfall" "Adele" None)] start
          = (Ok [Some (song "Skyfall" "Adele"
                         (Some (py "https://www.youtube.com/watch?v=v1")))],
             State []
               [Debug_match (py "Skyfall") (0, 0%nat, py "Sky fall")
                  (py "https://www.youtube.com/watch?v=v1")])) as Hrun
    by (vm_compute; reflexivity).
  split; [exact Hrun|].
  exact (proj1 (matching_loop_changes_only_the_link _ _ _ _ _ Hrun)).
Defined.

Lemma paired_playlist_raises_on_an_empty_slot_witness :
  exists out,
    parse_request (scripted half_downloaded) paired_playlist_request None false
      false 1 start
    = (Raise (Exn AttributeError (py "'NoneType' object has no attribute")),
       State [Called_from_album (py "open.spotify.com/playlist/3") false true;
              Called_get_metadata_for_playlist
                (py "music.youtube.com/playlist?list=OLAK")] out).
Proof.
  apply (paired_playlist_raises_on_an_empty_slot (scripted half_downloaded)
           paired_playlist_request None false false 1 start
           [Some (song "Hello" "Adele" None); None]
           [ {| ytm_title := py "Sky fall"; ytm_videoId := py "v1" |};
             {| ytm_title := py "Hello (Live)"; ytm_videoId := py "v2" |};
             {| ytm_title := py "fallSky"; ytm_videoId := py "v3" |} ]
           [Called_from_album (py "open.spotify.com/playlist/3") false true]);
    first [reflexivity | discriminate | by repeat constructor].
Defined.

Lemma exact_title_is_matched_silently_witness :
  find_best_match two_candidates (ytm_title <$> two_candidates)
    (Some (song "Skyfall" "Adele" None)) start
  = (Ok (Some (set_youtube_link (song "Skyfall" "Adele" None)
                 (youtube_watch_prefix ++ py "v1"))),
     State []
       [Debug_match (py "Skyfall") (0, 0%nat, py "Sky fall")
          (youtube_watch_prefix ++ py "v1")]).
Proof.
  apply (exact_title_is_matched_silently two_candidates
           (song "Skyfall" "Adele" None) 0
           {| ytm_title := py "Sky fall"; ytm_videoId := py "v1" |});
    first [reflexivity | intros i earlier Hi; lia].
Defined.

Lemma incorrect_format_is_reported_without_a_fetch_witness :
  parse_request (scripted calm) swapped_request None false false 1 start
  = (Ok [], State [] [Incorrect_format_YouTubeURL]).
Proof.
  apply (proj1 (incorrect_format_is_reported_without_a_fetch (scripted calm)
                  swapped_request None false false 1 start eq_refl)).
  reflexivity.
Defined.

Lemma segments_after_the_second_are_ignored_witness :
  paired_track_urls (scripted calm)
    (py "youtube.com/watch?v=1" ++ [pipe] ++ py "open.spotify.com/track/2"
     ++ [pipe] ++ py "rest|of|it") None
  = paired_track_urls (scripted calm)
      (py "youtube.com/watch?v=1" ++ [pipe] ++ py "open.spotify.com/track/2") None.
Proof.
  apply (segments_after_the_second_are_ignored (scripted calm)
           (py "youtube.com/watch?v=1") (py "open.spotify.com/track/2")
           (py "rest|of|it") None false 1);
    by apply (bool_decide_unpack _).
Defined.

Lemma downloaded_paired_track_is_skipped_witness :
  parse_request (scripted downloaded) paired_track_request None false false 1 start
  = (Ok [],
     State [Called_from_url (py "open.spotify.com/track/2");
            Called_is_file (py "Adele - Hello.mp3")]
           [Fetching_YouTube_video;
            Gathering_Spotify_Metadata (py "open.spotify.com/track/2");
            Skipping_already_downloaded (py "Adele - Hello")]).
Proof.
  apply (proj2 (downloaded_paired_track_is_skipped (scripted downloaded)
                  paired_track_request None false false 1 start
                  (track "Hello" "Adele") (Opaque (py "artist"))
                  (Opaque (py "album"))
                  [Called_from_url (py "open.spotify.com/track/2")]
                  [Called_from_url (py "open.spotify.com/track/2");
                   Called_is_file (py "Adele - Hello.mp3")]
                  eq_refl eq_refl eq_refl eq_refl)).
Defined.

Lemma single_track_outcomes_witness :
  parse_request (scripted calm) (py "open.spotify.com/track/XYZ") None false false
    1 start
  = (Ok [song "Hello" "Adele" (Some (py "yt/hello"))],
     State [Called_from_spotify_url (py "open.spotify.com/track/XYZ")]
           [Fetching_Song])
  /\ parse_request (scripted offline) (py "open.spotify.com/track/XYZ") None false
       false 1 start
     = (Raise connection_error,
        State [Called_from_spotify_url (py "open.spotify.com/track/XYZ")]
              [Fetching_Song]).
Proof.
  split.
  - apply (proj1 (single_track_outcomes (scripted calm)
                    (py "open.spotify.com/track/XYZ") None false false 1 start
                    [Called_from_spotify_url (py "open.spotify.com/track/XYZ")]
                    eq_refl)
             (song "Hello" "Adele" (Some (py "yt/hello"))) (py "yt/hello"));
      reflexivity.
  - apply (proj2 (proj2 (proj2 (single_track_outcomes (scripted offline)
                    (py "open.spotify.com/track/XYZ") None false false 1 start
                    [Called_from_spotify_url (py "open.spotify.com/track/XYZ")]
                    eq_refl)))).
    reflexivity.
Defined.

Lemma fetched_lists_lose_only_their_empty_slots_witness :
  exists line,
    parse_request (scripted half_downloaded) (py "open.spotify.com/album/9") None
      false false 1 start
    = (Ok [song "Hello" "Adele" None],
       State [Called_from_album (py "open.spotify.com/album/9") false false]
             [line]).
Proof.
  apply (proj1 (fetched_lists_lose_only_their_empty_slots
                  (scripted half_downloaded) (py "open.spotify.com/album/9") None
                  false false 1 start [Some (song "Hello" "Adele" None); None]
                  [Called_from_album (py "open.spotify.com/album/9") false false])
           _ eq_refl eq_refl).
Defined.

Lemma requests_without_the_catalog_marker_witness :
  classify (py "Saved") = SearchTerm /\ classify (py "saved") = SavedLibrary.
Proof.
  split.
  - apply (proj1 (requests_without_the_catalog_marker (scripted calm) (py "Saved")
                    None false false 1 eq_refl)).
  - apply (proj1 (requests_without_the_catalog_marker (scripted calm) (py "saved")
                    None false false 1 eq_refl)).
Defined.

Lemma paired_fetch_errors_propagate_witness :
  parse_request (scripted offline) paired_track_request None false false 1 start
  = (Raise connection_error,
     State [Called_from_url (py "open.spotify.com/track/2")]
           [Fetching_YouTube_video;
            Gathering_Spotify_Metadata (py "open.spotify.com/track/2")]).
Proof.
  apply (proj1 (paired_fetch_errors_propagate (scripted offline)
                  paired_track_request None false false 1 start connection_error
                  eq_refl) eq_refl
           [Called_from_url (py "open.spotify.com/track/2")] eq_refl).
Defined.

Lemma batches_compose_witness :
  parse_query (scripted calm) ([py "saved"] ++ [py "saved"]) None false false 1
    start
  = (Ok (stable_dedup (file_name (scripted calm))
           ([song "Daydreamer" "Adele" (Some (py "yt/day"))]
            ++ [song "Daydreamer" "Adele" (Some (py "yt/day"))])),
     State [Called_from_saved_tracks; Called_from_saved_tracks]
           [Fetching_Saved_Songs; Linefeed; Fetching_Saved_Songs; Linefeed]).
Proof.
  apply (batches_compose (scripted calm) [py "saved"] [py "saved"] None false
           false 1 start
           (State [Called_from_saved_tracks] [Fetching_Saved_Songs; Linefeed]));
    reflexivity.
Defined.

Lemma an_error_ends_the_batch_witness :
  parse_query (scripted offline)
    ([py "adele hello"] ++ py "open.spotify.com/album/1" :: [py "saved"])
    None false false 1 start
  = (Raise connection_error,
     State [Called_from_search_term (py "adele hello");
            Called_from_album (py "open.spotify.com/album/1") false false]
           [Searching_Spotify (py "adele hello");
            Print_exception connection_error; Linefeed; Fetching_Album]).
Proof.
  apply (an_error_ends_the_batch (scripted offline) [py "adele hello"]
           [py "saved"] (py "open.spotify.com/album/1") None false false 1 start
           (State [Called_from_search_term (py "adele hello")]
              [Searching_Spotify (py "adele hello");
               Print_exception connection_error; Linefeed])
           _ []);
    reflexivity.
Defined.

Lemma tracking_files_are_ignored_witness :
  parse_query (scripted calm)
    [py "Adele - Hello.spotdlTrackingFile"; py "x.spotdlTrackingFile"] None false
    false 1 start
  = (Ok [], start).
Proof.
  apply (proj2 (tracking_files_are_ignored (scripted calm)
                  [py "Adele - Hello.spotdlTrackingFile"; py "x.spotdlTrackingFile"]
                  None false false 1 start)).
  repeat constructor.
Defined.

Lemma duplicate_removal_is_idempotent_witness :
  remove_duplicates (scripted calm)
    [song "A" "x" None; song "B" "x" None] ∅ []
  = [song "A" "x" None; song "B" "x" None].
Proof.
  apply (proj1 (duplicate_removal_is_idempotent (scripted calm)
                  [song "A" "x" None; song "B" "x" None])).
  apply (bool_decide_unpack _). reflexivity.
Defined.
